(** * MediaCrush [mediacrush/files.py]: content-addressed ingestion

    A shallow embedding of the upload / status / accounting / deletion
    functions of [mediacrush/files.py] (Python 2), with the properties the
    specification states about them.

    Conventions of the embedding:
    - a Python 2 [str] is a byte string and is modelled by [string];
    - an exception is a value of [exn]; a function that can raise returns a
      [res];
    - the file system below the storage folder, the metadata store, the
      redis key space, the rate limiter and the standard output form the
      [World] that every effectful function threads through. *)

From Stdlib Require Import ZArith String Ascii List Lia.
From Stdlib Require Import Floats.SpecFloat.
From stdpp Require Import gmap strings list.

Open Scope string_scope.
Open Scope Z_scope.

(** ** Python exceptions and results *)

Inductive exn : Type :=
| IndexError
| NameError (name : string)
| OSError
| IOError
| ZeroDivisionError
| TypeError
| ValueError
| AttributeError
| ResponseError.

Inductive res (A : Type) : Type :=
| Ok (a : A)
| Raise (e : exn).
Arguments Ok {A} a.
Arguments Raise {A} e.

Definition res_bind {A B} (r : res A) (k : A -> res B) : res B :=
  match r with
  | Ok a => k a
  | Raise e => Raise e
  end.

Definition res_map {A B} (g : A -> B) (r : res A) : res B :=
  res_bind r (fun a => Ok (g a)).

(** ** Python string primitives used by the module *)

Module PyStr.

(** [c in s] for a one-character [c]. *)
Fixpoint contains (c : ascii) (s : string) : bool :=
  match s with
  | EmptyString => false
  | String d r => Ascii.eqb d c || contains c r
  end.

(** [s.split(sep)] for a one-character separator. *)
Fixpoint split (sep : ascii) (s : string) : list string :=
  match s with
  | EmptyString => [EmptyString]
  | String c r =>
      let parts := split sep r in
      if Ascii.eqb c sep then EmptyString :: parts
      else match parts with
           | p :: ps => String c p :: ps
           | [] => [String c EmptyString]
           end
  end.

(** The cut at the last occurrence of [sep], if there is one. *)
Fixpoint rcut (sep : ascii) (s : string) : option (string * string) :=
  match s with
  | EmptyString => None
  | String c r =>
      match rcut sep r with
      | Some (a, b) => Some (String c a, b)
      | None => if Ascii.eqb c sep then Some (EmptyString, r) else None
      end
  end.

(** [s.rsplit(sep, 1)]. *)
Definition rsplit1 (sep : ascii) (s : string) : list string :=
  match rcut sep s with
  | Some (a, b) => [a; b]
  | None => [s]
  end.

(** [l[i]]. *)
Definition index {A} (l : list A) (i : nat) : res A :=
  match l !! i with
  | Some a => Ok a
  | None => Raise IndexError
  end.

Definition lower_ascii (c : ascii) : ascii :=
  let n := N_of_ascii c in
  if ((65 <=? n) && (n <=? 90))%N then ascii_of_N (n + 32) else c.

(** [s.lower()] (bytes outside A-Z are left alone). *)
Fixpoint lower (s : string) : string :=
  match s with
  | EmptyString => EmptyString
  | String c r => String (lower_ascii c) (lower r)
  end.

(** [s.replace(old, new)] for one-character [old] and [new]. *)
Fixpoint replace (old new : ascii) (s : string) : string :=
  match s with
  | EmptyString => EmptyString
  | String c r => String (if Ascii.eqb c old then new else c) (replace old new r)
  end.

(** [s[:n]]. *)
Fixpoint take (n : nat) (s : string) : string :=
  match n, s with
  | S n', String c r => String c (take n' r)
  | _, _ => EmptyString
  end.

(** [s[n:]]. *)
Fixpoint drop (n : nat) (s : string) : string :=
  match n, s with
  | S n', String _ r => drop n' r
  | _, _ => s
  end.

(** [fmt % args] with [str] arguments.  The module's format strings use
    the conversion [%s] only; [%%] is the escaped percent sign; any other
    conversion is reported as [ValueError].  Too few or too many
    arguments are a [TypeError]. *)
Fixpoint format (fmt : string) (args : list string) : res string :=
  match fmt with
  | EmptyString =>
      match args with
      | [] => Ok EmptyString
      | _ :: _ => Raise TypeError
      end
  | String "%" (String "s" rest) =>
      match args with
      | a :: args' => res_map (String.append a) (format rest args')
      | [] => Raise TypeError
      end
  | String "%" (String "%" rest) => res_map (String "%") (format rest args)
  | String "%" _ => Raise ValueError
  | String c rest => res_map (String c) (format rest args)
  end.

(** [os.path.join(a, b)] of [posixpath]. *)
Definition path_join (a b : string) : string :=
  match b with
  | String "/" _ => b
  | _ =>
      match a with
      | EmptyString => b
      | _ =>
          match String.get (String.length a - 1) a with
          | Some "/"%char => a +:+ b
          | _ => a +:+ "/" +:+ b
          end
      end
  end.

End PyStr.

(** ** [base64.b64encode] *)

Module Base64.

Definition alphabet : string :=
  "ABCDEFGHIJKLMNOPQRSTUVWXYZabcdefghijklmnopqrstuvwxyz0123456789+/".

(** The character of a six-bit group. *)
Definition digit (n : N) : ascii :=
  match String.get (N.to_nat (n mod 64)) alphabet with
  | Some c => c
  | None => "="%char
  end.

Definition byte (c : ascii) : N := N_of_ascii c.

(** Three bytes give four characters; a final group of one or two bytes
    is padded with [=]. *)
Fixpoint b64encode (s : string) : string :=
  match s with
  | EmptyString => EmptyString
  | String a EmptyString =>
      let n := (byte a * 16)%N in
      String (digit (n / 64)) (String (digit n) "==")
  | String a (String b EmptyString) =>
      let n := ((byte a * 256 + byte b) * 4)%N in
      String (digit (n / 4096)) (String (digit (n / 64)) (String (digit n) "="))
  | String a (String b (String c rest)) =>
      let n := (byte a * 65536 + byte b * 256 + byte c)%N in
      String (digit (n / 262144))
        (String (digit (n / 4096))
           (String (digit (n / 64)) (String (digit n) (b64encode rest))))
  end.

End Base64.

(** ** Module constants and the pure helpers *)

Definition VIDEO_EXTENSIONS : gset string := {[ "gif"; "ogv"; "mp4"; "webm" ]}.
Definition AUDIO_EXTENSIONS : gset string := {[ "mp3"; "ogg"; "oga" ]}.
Definition EXTENSIONS : gset string :=
  {[ "png"; "jpg"; "jpe"; "jpeg"; "svg" ]} ∪ VIDEO_EXTENSIONS ∪ AUDIO_EXTENSIONS.
Definition LOOP_EXTENSIONS : gset string := {[ "gif" ]}.
Definition AUTOPLAY_EXTENSIONS : gset string := {[ "gif" ]}.

(** An entry of [processing_needed].  [extras], [time] and [processor] are
    optional keys of the dictionaries. *)
Record processing_entry : Type := {
  formats : list string;
  extras : option (list string);
  time : option Z;
  processor : option string
}.

Definition processing_needed : gmap string processing_entry :=
  list_to_map [
    ("image/gif",
      {| formats := ["video/mp4"; "video/ogv"; "video/webm"];
         extras := Some ["image/png"]; time := None;
         processor := Some "GifProcessor" |});
    ("video/mp4",
      {| formats := ["video/webm"; "video/ogv"];
         extras := Some ["image/png"]; time := Some 600; processor := None |});
    ("video/webm",
      {| formats := ["video/mp4"; "video/ogv"];
         extras := Some ["image/png"]; time := Some 600; processor := None |});
    ("video/ogv",
      {| formats := ["video/mp4"; "video/webm"];
         extras := Some ["image/png"]; time := Some 600; processor := None |});
    ("image/jpeg",
      {| formats := []; extras := None; time := Some 5; processor := None |});
    ("image/png",
      {| formats := []; extras := None; time := Some 60; processor := None |});
    ("image/svg",
      {| formats := []; extras := None; time := Some 5; processor := None |});
    ("audio/mp3",
      {| formats := ["audio/ogg"]; extras := None; time := Some 120;
         processor := None |});
    ("audio/ogg",
      {| formats := ["audio/oga"; "audio/mp3"]; extras := None;
         time := Some 120; processor := None |})
  ].

(** [extension = lambda f: f.rsplit('.', 1)[1].lower()] *)
Definition extension (f : string) : res string :=
  res_map PyStr.lower (PyStr.index (PyStr.rsplit1 "." f) 1).

(** [to_id = lambda h: base64.b64encode(h)[:12].replace('/', '_').replace('+', '-')] *)
Definition to_id (h : string) : string :=
  PyStr.replace "+" "-" (PyStr.replace "/" "_" (PyStr.take 12 (Base64.b64encode h))).

(** [allowed_file]: the [and] evaluates [extension] only when the filename
    has a dot. *)
Definition allowed_file (filename : string) : res bool :=
  if PyStr.contains "." filename
  then res_map (fun e => bool_decide (e ∈ EXTENSIONS)) (extension filename)
  else Ok false.


(** ** Floating point: [float(n)], [/] and [round(x, 2)]

    Python floats are IEEE 754 binary64 values; [spec_float] of the
    standard library with precision 53 and exponent bound 1024 is that
    format, with correctly rounded operations. *)

Module PyFloat.

Definition prec : Z := 53.
Definition emax : Z := 1024.

(** [float(n)] for an integer [n] (round to nearest, ties to even). *)
Definition of_Z (n : Z) : spec_float := binary_normalize prec emax n 0 false.

Definition is_zero (x : spec_float) : bool :=
  match x with
  | S754_zero _ => true
  | _ => false
  end.

(** [a / b]: a zero divisor raises. *)
Definition div (a b : spec_float) : res spec_float :=
  if is_zero b then Raise ZeroDivisionError else Ok (SFdiv prec emax a b).

(** [round(x, 2)] of Python 2: the exact binary value is rounded to two
    decimal places, halfway cases away from zero, and the decimal result
    is converted back to the nearest float.  Zeros, infinities and NaN
    round to themselves. *)
Definition round2 (x : spec_float) : spec_float :=
  match x with
  | S754_finite s m e =>
      if 0 <=? e then x
      else
        let d := 2 ^ (- e) in
        let n := (200 * Zpos m + d) / (2 * d) in
        match n with
        | Zpos p => SFdiv prec emax (S754_finite s p 0) (S754_finite false 100 0)
        | _ => S754_zero s
        end
  | _ => x
  end.

End PyFloat.

(** A Python number: [compression_rate] returns the [int] 0 or a [float]. *)
Inductive number : Type :=
| Int (n : Z)
| Float (x : spec_float).

(** ** Collaborators outside [files.py]

    [hashlib.md5], [mimetypes.guess_extension], the configuration
    ([_cfg("storage_folder")], the redis key prefix, [current_app.debug]),
    [secure_ip] of [network.py] and the rate limiter of [ratelimit.py] are
    taken as parameters. *)
Class Collaborators : Type := {
  RL : Type;
  md5 : string -> string;
  guess_extension : string -> option string;
  storage_folder : string;
  key_prefix : string;
  debug : bool;
  secure_ip : string;
  rate_limit_update : Z -> RL -> RL;
  rate_limit_exceeded : RL -> bool
}.

(** The metadata record [objects.File]. *)
Record File : Type := {
  hash : string;
  original : string;
  compression : Z;
  ip : string
}.

(** A redis value: a string or a list. *)
Inductive rvalue : Type :=
| RString (s : string)
| RList (l : list string).

(** The uploaded file object (a werkzeug [FileStorage] or a [URLFile]):
    its truth value, its declared content type, the bytes of its stream and
    the stream's cursor. *)
Record upload_file : Type := {
  nonzero : bool;
  content_type : option string;
  stream : string;
  pos : nat
}.

(** What [upload] returns: the identifier alone, or a pair of a string and
    an HTTP status. *)
Inductive upload_result : Type :=
| Identifier (identifier : string)
| Status (token : string) (code : Z).

(** The names bound at module level in [files.py]; a name a function body
    reads that is neither a local nor one of these raises [NameError]. *)
Definition module_globals : list string :=
  [ "mimetypes"; "base64"; "hashlib"; "os"; "tempfile"; "requests";
    "current_app"; "_cfg"; "r"; "_k"; "File"; "rate_limit_exceeded";
    "rate_limit_update"; "secure_ip"; "GifProcessor";
    "VIDEO_EXTENSIONS"; "AUDIO_EXTENSIONS"; "EXTENSIONS"; "LOOP_EXTENSIONS";
    "AUTOPLAY_EXTENSIONS"; "processing_needed"; "URLFile"; "allowed_file";
    "get_hash"; "get_mimetype"; "media_url"; "file_storage"; "file_length";
    "compression_rate"; "upload"; "delete_file"; "processing_status";
    "delete_file_storage"; "extension"; "to_id" ].

Section Model.

Context `{C : Collaborators}.

(** *** The shared state *)

Record World : Type := {
  fs : gmap string string;
  files : gmap string File;
  kv : gmap string rvalue;
  rl : RL;
  stdout : list string
}.

Definition set_fs (g : gmap string string -> gmap string string) (w : World) : World :=
  {| fs := g (fs w); files := files w; kv := kv w; rl := rl w; stdout := stdout w |}.
Definition set_files (g : gmap string File -> gmap string File) (w : World) : World :=
  {| fs := fs w; files := g (files w); kv := kv w; rl := rl w; stdout := stdout w |}.
Definition set_kv (g : gmap string rvalue -> gmap string rvalue) (w : World) : World :=
  {| fs := fs w; files := files w; kv := g (kv w); rl := rl w; stdout := stdout w |}.
Definition set_rl (g : RL -> RL) (w : World) : World :=
  {| fs := fs w; files := files w; kv := kv w; rl := g (rl w); stdout := stdout w |}.
Definition set_stdout (g : list string -> list string) (w : World) : World :=
  {| fs := fs w; files := files w; kv := kv w; rl := rl w; stdout := g (stdout w) |}.

(** *** The monad of effectful code: state and exceptions *)

Definition M (A : Type) : Type := World -> res A * World.

Definition ret {A} (a : A) : M A := fun w => (Ok a, w).
Definition raise {A} (e : exn) : M A := fun w => (Raise e, w).
Definition bind {A B} (m : M A) (k : A -> M B) : M B :=
  fun w =>
    match m w with
    | (Ok a, w') => k a w'
    | (Raise e, w') => (Raise e, w')
    end.
Definition lift {A} (r : res A) : M A := fun w => (r, w).

(** [try: body except ...: handler]; the handler re-raises what its
    [except] clause does not match. *)
Definition try_except {A} (body : M A) (handler : exn -> M A) : M A :=
  fun w =>
    match body w with
    | (Ok a, w') => (Ok a, w')
    | (Raise e, w') => handler e w'
    end.

End Model.

Declare Scope py_scope.
Delimit Scope py_scope with py.
Notation "x <- m ;; k" := (bind m (fun x => k))
  (at level 100, m at next level, right associativity) : py_scope.
Notation "m ;; k" := (bind m (fun _ => k))
  (at level 100, right associativity) : py_scope.

Section Operations.

Context `{C : Collaborators}.
Local Open Scope py_scope.

(** *** File system ([os], [os.path]) *)

Definition os_path_exists (path : string) : M bool :=
  fun w => (Ok (bool_decide (is_Some (fs w !! path))), w).

Definition os_path_getsize (path : string) : M Z :=
  fun w =>
    match fs w !! path with
    | Some bytes => (Ok (Z.of_nat (String.length bytes)), w)
    | None => (Raise OSError, w)
    end.

Definition os_unlink (path : string) : M unit :=
  fun w =>
    match fs w !! path with
    | Some _ => (Ok tt, set_fs (delete path) w)
    | None => (Raise OSError, w)
    end.

Definition print (line : string) : M unit :=
  fun w => (Ok tt, set_stdout (fun out => (out ++ [line])%list) w).

(** *** The uploaded file object *)

(** [f.seek(0)] *)
Definition seek_start (f : upload_file) : upload_file :=
  {| nonzero := nonzero f; content_type := content_type f;
     stream := stream f; pos := 0%nat |}.

(** [f.seek(0, 2)] *)
Definition seek_end (f : upload_file) : upload_file :=
  {| nonzero := nonzero f; content_type := content_type f;
     stream := stream f; pos := String.length (stream f) |}.

(** [f.tell()] *)
Definition tell (f : upload_file) : Z := Z.of_nat (pos f).

(** [f.read()]: the bytes from the cursor on; the cursor moves to the end. *)
Definition read (f : upload_file) : string * upload_file :=
  (PyStr.drop (pos f) (stream f), seek_end f).

(** [f.save(path)]: copies the stream from the cursor on to [path]. *)
Definition save (f : upload_file) (path : string) : M upload_file :=
  fun w =>
    let '(bytes, f') := read f in
    (Ok f', set_fs (insert path bytes) w).

(** *** Redis ([r]) and the key namespace *)

(** Modelled from the spec: [_k] of [database.py] is missing; all keys are
    namespaced under an application prefix. *)
Definition _k (key : string) : string := key_prefix +:+ key.

Definition r_exists (key : string) : M bool :=
  fun w => (Ok (bool_decide (is_Some (kv w !! key))), w).

(** [r.get(key)]: [None] stands for Python's [None]. *)
Definition r_get (key : string) : M (option string) :=
  fun w =>
    match kv w !! key with
    | None => (Ok None, w)
    | Some (RString s) => (Ok (Some s), w)
    | Some (RList _) => (Raise ResponseError, w)
    end.

Definition r_set (key value : string) : M unit :=
  fun w => (Ok tt, set_kv (insert key (RString value)) w).

Definition r_delete (key : string) : M unit :=
  fun w => (Ok tt, set_kv (delete key) w).

Definition r_lpush (key value : string) : M unit :=
  fun w =>
    match kv w !! key with
    | None => (Ok tt, set_kv (insert key (RList [value])) w)
    | Some (RList l) => (Ok tt, set_kv (insert key (RList (value :: l))) w)
    | Some (RString _) => (Raise ResponseError, w)
    end.

(** *** The metadata store ([objects.File]) *)

(** Modelled from the spec: [File.from_hash], [save] and [delete] of
    [objects.py] are missing; the MetadataStore gets, saves and deletes a
    record by its identifier.  A missing record is [None], whose
    attributes cannot be read. *)
Definition File_from_hash (identifier : string) : M (option File) :=
  fun w => (Ok (files w !! identifier), w).

Definition attributes (o : option File) : M File :=
  match o with
  | Some item => ret item
  | None => raise AttributeError
  end.

Definition File_save (item : File) : M unit :=
  fun w => (Ok tt, set_files (insert (hash item) item) w).

Definition File_delete (item : File) : M unit :=
  fun w => (Ok tt, set_files (delete (hash item)) w).

(** *** The rate limiter ([ratelimit.py]) *)

Definition do_rate_limit_update (n : Z) : M unit :=
  fun w => (Ok tt, set_rl (rate_limit_update n) w).

Definition do_rate_limit_exceeded : M bool :=
  fun w => (Ok (rate_limit_exceeded (rl w)), w).

(** *** Functions of [files.py] *)

(** [get_hash]: the digest and the file object after the read. *)
Definition get_hash (f : upload_file) : string * upload_file :=
  let f := seek_start f in
  let '(bytes, f) := read f in
  (md5 bytes, f).

Definition file_storage (f : string) : string :=
  PyStr.path_join storage_folder f.

(** [file_length]: the length and the file object after the seeks. *)
Definition file_length (f : upload_file) : Z * upload_file :=
  let f := seek_end f in
  let by_ := tell f in
  let f := seek_start f in
  (by_, f).

(** The [for] loop of [compression_rate], with [minsize] as accumulator. *)
Fixpoint min_over_formats (f : string) (fmts : list string) (minsize : Z) : M Z :=
  match fmts with
  | [] => ret minsize
  | f_ext :: rest =>
      minsize' <- try_except
                    (name <- lift (PyStr.format "%s.%s" [f; f_ext]) ;;
                     convsize <- os_path_getsize (file_storage name) ;;
                     ret (Z.min minsize convsize))
                    (fun e => match e with
                              | OSError => ret minsize
                              | _ => raise e
                              end) ;;
      min_over_formats f rest minsize'
  end.

Definition compression_rate (f : string) : M number :=
  o <- File_from_hash f ;;
  f_original <- attributes o ;;
  ext <- lift (extension (original f_original)) ;;
  match processing_needed !! ext with
  | None => ret (Int 0)
  | Some entry =>
      if (length (formats entry) =? 0)%nat then ret (Int 0)
      else
        let original_size := compression f_original in
        size <- os_path_getsize (file_storage (original f_original)) ;;
        minsize <- min_over_formats f (formats entry) (Z.min original_size size) ;;
        x <- lift (PyFloat.div (PyFloat.of_Z minsize) (PyFloat.of_Z original_size)) ;;
        y <- lift (PyFloat.div (PyFloat.of_Z 1) x) ;;
        ret (Float (PyFloat.round2 y))
  end.

(** Lines 157-166 of [upload]: the filename with the extension of the
    declared content type appended. *)
Definition resulting_filename (f : upload_file) (filename : string) : res string :=
  match content_type f with
  | Some ct =>
      if negb (String.eqb ct EmptyString) && negb (String.eqb ct "application/octet-stream")
      then
        res_map (String.append filename)
          match guess_extension ct with
          | Some ext => if String.eqb ext EmptyString then
                          res_map (String.append ".") (PyStr.index (PyStr.split "/" ct) 1)
                        else Ok ext
          | None => res_map (String.append ".") (PyStr.index (PyStr.split "/" ct) 1)
          end
      else Ok filename
  | None => Ok filename
  end.

(** Lines 169-172 of [upload]: the rate limiter is consulted unless the
    application runs in debug mode. *)
Definition rate_gate (f : upload_file) : M (bool * upload_file) :=
  if negb debug then
    let '(n, f) := file_length f in
    do_rate_limit_update n ;;
    exceeded <- do_rate_limit_exceeded ;;
    ret (exceeded, f)
  else ret (false, f).

Definition upload (f : upload_file) (filename : string) : M upload_result :=
  filename <- lift (resulting_filename f filename) ;;
  allowed <- (if nonzero f then lift (allowed_file filename) else ret false) ;;
  if allowed : bool then
    gate <- rate_gate f ;;
    let '(limited, f) := gate in
    if limited : bool then ret (Status "ratelimit" 420)
    else
      let '(h, f) := get_hash f in
      let identifier := to_id h in
      ext <- lift (extension filename) ;;
      filename <- lift (PyStr.format "%s.%s" [identifier; ext]) ;;
      let path := file_storage filename in
      present <- os_path_exists path ;;
      if present : bool then ret (Status identifier 409)
      else
        let f := seek_start f in
        _ <- save f path ;;
        size <- os_path_getsize path ;;
        let file_object :=
          {| hash := identifier; compression := size;
             original := filename; ip := secure_ip |} in
        File_save file_object ;;
        r_lpush (_k "gifqueue") identifier ;;
        lock <- lift (PyStr.format "%s.lock" [identifier]) ;;
        r_set (_k lock) "1" ;;
        ret (Identifier identifier)
  else ret (Status "no" 415).

(** A name read in a function body: a local, else a module global (none
    of which is a string), else [NameError]. *)
Definition read_name (locals : list (string * string)) (name : string) : M string :=
  match list_to_map (M := gmap string string) locals !! name with
  | Some v => ret v
  | None =>
      if bool_decide (name ∈ module_globals) then raise TypeError
      else raise (NameError name)
  end.

(** [delete_file_storage]: the body of the [try] reads the name [f]; the
    bare [except] catches whatever is raised. *)
Definition delete_file_storage (path : string) : M unit :=
  let locals := [("path", path)] in
  try_except
    (f <- read_name locals "f" ;;
     os_unlink (file_storage f))
    (fun _ => print ("Failed to delete file " +:+ path)).

(** The [for] loop of [delete_file]. *)
Fixpoint delete_renditions (identifier : string) (fmts : list string) : M unit :=
  match fmts with
  | [] => ret tt
  | f_ext :: rest =>
      name <- lift (PyStr.format "%s.%s" [identifier; f_ext]) ;;
      delete_file_storage name ;;
      delete_renditions identifier rest
  end.

Definition delete_file (f : File) : M unit :=
  ext <- lift (extension (original f)) ;;
  delete_file_storage (original f) ;;
  match processing_needed !! ext with
  | Some entry => delete_renditions (hash f) (formats entry)
  | None => ret tt
  end ;;
  File_delete f.

(** [processing_status]; the returned [None] stands for Python's [None]
    (what [r.get] gives for a missing key). *)
Definition processing_status (id : string) : M (option string) :=
  let filename := id in
  lock <- lift (PyStr.format "%s.lock" [filename]) ;;
  locked <- r_exists (_k lock) ;;
  if negb locked then
    error <- lift (PyStr.format "%s.error" [filename]) ;;
    failed <- r_exists (_k error) ;;
    if failed : bool then
      error <- lift (PyStr.format "%s.error" [filename]) ;;
      failure_type <- r_get (_k error) ;;
      key <- lift (PyStr.format (_k "%s.error") [filename]) ;;
      r_delete key ;;
      ret failure_type
    else ret (Some "done")
  else ret (Some "processing").

End Operations.

(** ** The specification's vocabulary *)

(** The allowed set as the specification lists it. *)
Definition SPEC_EXTENSIONS : gset string :=
  {[ "png"; "jpg"; "jpeg"; "svg"; "gif"; "ogv"; "mp4"; "webm"; "mp3"; "ogg"; "oga" ]}.

(** The Identifier Codec in the specification's words: the content hash,
    encoded with the URL-safe variant of base64 ([+] becomes [-], [/]
    becomes [_]), truncated to 12 characters. *)
Definition urlsafe_char (c : ascii) : ascii :=
  if Ascii.eqb c "+" then "-"%char
  else if Ascii.eqb c "/" then "_"%char
  else c.

Fixpoint urlsafe (s : string) : string :=
  match s with
  | EmptyString => EmptyString
  | String c r => String (urlsafe_char c) (urlsafe r)
  end.

Definition deriveIdentifier `{C : Collaborators} (bytes : string) : string :=
  PyStr.take 12 (urlsafe (Base64.b64encode (md5 bytes))).

Section Vocabulary.

Context `{C : Collaborators}.

(** The filename has an extension (lower-cased) in the set [S]. *)
Definition has_extension_in (S : gset string) (fn : string) : Prop :=
  exists e, extension fn = Ok e /\ e ∈ S.

(** "upload rejects with ("no", 415) unless the resulting filename has an
    extension in [S]". *)
Definition rejects_unless_extension_in (S : gset string) : Prop :=
  forall f filename fn w,
    resulting_filename f filename = Ok fn ->
    ~ has_extension_in S fn ->
    (upload f filename w).1 = Ok (Status "no" 415).

(** The byte length [file_length] reports for [f]. *)
Definition source_length (f : upload_file) : Z :=
  Z.of_nat (String.length (stream f)).

(** The world once the usage of [f] has been recorded. *)
Definition recorded (f : upload_file) (w : World) : World :=
  set_rl (rate_limit_update (source_length f)) w.

(** The storage path of the content of [f] under the extension [ext]. *)
Definition storage_path (f : upload_file) (ext : string) : string :=
  file_storage (to_id (md5 (stream f)) +:+ "." +:+ ext).

(** The world in which [upload] looks for a duplicate: usage is recorded
    unless the application runs in debug mode. *)
Definition gated (f : upload_file) (w : World) : World :=
  if debug then w else recorded f w.

(** The record [upload] saves for the content of [f] under [ext]. *)
Definition new_record (f : upload_file) (ext : string) : File :=
  {| hash := to_id (md5 (stream f));
     compression := source_length f;
     original := to_id (md5 (stream f)) +:+ "." +:+ ext;
     ip := secure_ip |}.

(** The queue after a push of [identifier], if the key can take one. *)
Definition pushed (identifier : string) (queue : option rvalue) : option rvalue :=
  match queue with
  | None => Some (RList [identifier])
  | Some (RList l) => Some (RList (identifier :: l))
  | Some (RString _) => None
  end.

(** Lines 182-194 of [upload] in closed form: the blob and the record are
    written, then the job is queued and the lock set. *)
Definition store_new (f : upload_file) (ext : string) (w : World) :
    res upload_result * World :=
  let identifier := to_id (md5 (stream f)) in
  let w1 := set_files (insert identifier (new_record f ext))
              (set_fs (insert (storage_path f ext) (stream f)) w) in
  match pushed identifier (kv w !! _k "gifqueue") with
  | Some queue =>
      (Ok (Identifier identifier),
       set_kv (insert (_k (identifier +:+ ".lock")) (RString "1"))
         (set_kv (insert (_k "gifqueue") queue) w1))
  | None => (Raise ResponseError, w1)
  end.

(** "the record of a content's identifier is never rewritten by a later
    ingestion of the same content, regardless of the filename or declared
    content type supplied". *)
Definition record_never_rewritten : Prop :=
  forall f1 name1 w0 i w1 f2 name2,
    upload f1 name1 w0 = (Ok (Identifier i), w1) ->
    stream f2 = stream f1 ->
    files (upload f2 name2 w1).2 !! i = files w1 !! i.

(** No [%] in the key prefix: [_k] of a format string is then a format
    string with the same conversions. *)
Definition plain_prefix : Prop := PyStr.contains "%" key_prefix = false.

End Vocabulary.

(** ** An MD5 for the examples

    [hashlib.md5] is a parameter of the model ([md5] of [Collaborators]);
    the concrete deployments below instantiate it with this RFC 1321
    implementation, so that the examples carry the identifiers the
    program derives. *)

Module MD5.

Definition w32 (x : Z) : Z := x mod 4294967296.

Definition rotl (x n : Z) : Z :=
  w32 (Z.lor (Z.shiftl x n) (Z.shiftr x (32 - n))).

Definition lnot32 (x : Z) : Z := Z.lxor x 4294967295.

(** [floor(2^32 * abs(sin(i + 1)))] for [i] from 0 to 63. *)
Definition K : list Z := [
    3614090360; 3905402710; 606105819; 3250441966;
    4118548399; 1200080426; 2821735955; 4249261313;
    1770035416; 2336552879; 4294925233; 2304563134;
    1804603682; 4254626195; 2792965006; 1236535329;
    4129170786; 3225465664; 643717713; 3921069994;
    3593408605; 38016083; 3634488961; 3889429448;
    568446438; 3275163606; 4107603335; 1163531501;
    2850285829; 4243563512; 1735328473; 2368359562;
    4294588738; 2272392833; 1839030562; 4259657740;
    2763975236; 1272893353; 4139469664; 3200236656;
    681279174; 3936430074; 3572445317; 76029189;
    3654602809; 3873151461; 530742520; 3299628645;
    4096336452; 1126891415; 2878612391; 4237533241;
    1700485571; 2399980690; 4293915773; 2240044497;
    1873313359; 4264355552; 2734768916; 1309151649;
    4149444226; 3174756917; 718787259; 3951481745
].

(** The rotation of each step. *)
Definition shifts : list Z := [
    7; 12; 17; 22; 7; 12; 17; 22; 7; 12; 17; 22; 7; 12; 17; 22;
    5; 9; 14; 20; 5; 9; 14; 20; 5; 9; 14; 20; 5; 9; 14; 20;
    4; 11; 16; 23; 4; 11; 16; 23; 4; 11; 16; 23; 4; 11; 16; 23;
    6; 10; 15; 21; 6; 10; 15; 21; 6; 10; 15; 21; 6; 10; 15; 21
].

Definition state : Type := (Z * Z * Z * Z)%type.

Definition init : state := (1732584193, 4023233417, 2562383102, 271733878).

(** One of the 64 steps on the 16 words [M] of a block. *)
Definition step (M : list Z) (st : state) (i : nat) : state :=
  let '(A, B, C, D) := st in
  let iz := Z.of_nat i in
  let '(F, g) :=
    if iz <? 16 then (Z.lor (Z.land B C) (Z.land (lnot32 B) D), iz)
    else if iz <? 32 then (Z.lor (Z.land D B) (Z.land (lnot32 D) C), (5 * iz + 1) mod 16)
    else if iz <? 48 then (Z.lxor (Z.lxor B C) D, (3 * iz + 5) mod 16)
    else (Z.lxor C (Z.lor B (lnot32 D)), (7 * iz) mod 16) in
  let F' := w32 (F + A + nth i K 0 + nth (Z.to_nat g) M 0) in
  (D, w32 (B + rotl F' (nth i shifts 0)), B, C).

(** Little-endian words of a list of bytes. *)
Fixpoint words (bytes : list Z) : list Z :=
  match bytes with
  | b0 :: b1 :: b2 :: b3 :: rest =>
      (b0 + 256 * b1 + 65536 * b2 + 16777216 * b3) :: words rest
  | _ => []
  end.

Definition block (st : state) (bytes : list Z) : state :=
  let '(a0, b0, c0, d0) := st in
  let '(A, B, C, D) := fold_left (step (words bytes)) (seq 0 64) st in
  (w32 (a0 + A), w32 (b0 + B), w32 (c0 + C), w32 (d0 + D)).

Fixpoint blocks (n : nat) (st : state) (bytes : list Z) : state :=
  match n with
  | O => st
  | S n' => blocks n' (block st (firstn 64 bytes)) (skipn 64 bytes)
  end.

Definition le_bytes (width : nat) (x : Z) : list Z :=
  map (fun i => (x / 256 ^ Z.of_nat i) mod 256) (seq 0 width).

(** The message, the byte 128, zeros up to 56 modulo 64, and the length in
    bits on eight bytes. *)
Definition pad (bytes : list Z) : list Z :=
  let len := Z.of_nat (length bytes) in
  let zeros := Z.to_nat ((55 - len) mod 64) in
  (bytes ++ 128 :: repeat 0 zeros ++ le_bytes 8 ((8 * len) mod 2 ^ 64))%list.

Fixpoint bytes_of (s : string) : list Z :=
  match s with
  | EmptyString => []
  | String c r => Z.of_N (N_of_ascii c) :: bytes_of r
  end.

Fixpoint string_of (bytes : list Z) : string :=
  match bytes with
  | [] => EmptyString
  | b :: r => String (ascii_of_N (Z.to_N b)) (string_of r)
  end.

(** [hashlib.md5(s).digest()] *)
Definition digest (s : string) : string :=
  let padded := pad (bytes_of s) in
  let '(a, b, c, d) := blocks (length padded / 64) init padded in
  string_of (le_bytes 4 a ++ le_bytes 4 b ++ le_bytes 4 c ++ le_bytes 4 d)%list.

(** The digest in hexadecimal, for comparison with the test suite of
    RFC 1321. *)
Definition hex_digit (n : Z) : ascii :=
  match String.get (Z.to_nat n) "0123456789abcdef" with
  | Some c => c
  | None => "?"%char
  end.

Fixpoint hex (bytes : list Z) : string :=
  match bytes with
  | [] => EmptyString
  | b :: r => String (hex_digit (b / 16)) (String (hex_digit (b mod 16)) (hex r))
  end.

Definition hexdigest (s : string) : string := hex (bytes_of (digest s)).

End MD5.

(** ** Concrete collaborators and worlds for the examples *)

Definition toy_guess_extension (ct : string) : option string :=
  if String.eqb ct "image/gif" then Some ".gif"
  else if String.eqb ct "image/png" then Some ".png"
  else if String.eqb ct "image/jpeg" then Some ".jpe"
  else if String.eqb ct "video/mp4" then Some ".mp4"
  else None.

(** A deployment that counts bytes against a quota of 1000, with a short
    table for [mimetypes.guess_extension]. *)
Definition production : Collaborators := {|
  RL := Z;
  md5 := MD5.digest;
  guess_extension := toy_guess_extension;
  storage_folder := "/srv/media";
  key_prefix := "mediacrush.";
  debug := false;
  secure_ip := "203.0.113.7";
  rate_limit_update := fun n used => used + n;
  rate_limit_exceeded := fun used => 1000 <? used
|}.

(** The same deployment in debug mode. *)
Definition development : Collaborators := {|
  RL := Z;
  md5 := MD5.digest;
  guess_extension := toy_guess_extension;
  storage_folder := "/srv/media";
  key_prefix := "mediacrush.";
  debug := true;
  secure_ip := "203.0.113.7";
  rate_limit_update := fun n used => used + n;
  rate_limit_exceeded := fun used => 1000 <? used
|}.

Definition empty_world (C : Collaborators) (quota_used : @RL C) : @World C :=
  {| fs := ∅; files := ∅; kv := ∅; rl := quota_used; stdout := [] |}.

(** A world of the [production] deployment. *)
Definition production_world (blobs : gmap string string) (records : gmap string File)
    (keys : gmap string rvalue) (quota_used : Z) : @World production :=
  @Build_World production blobs records keys quota_used [].

(** An upload without a declared content type, cursor at the start. *)
Definition plain_upload (bytes : string) : upload_file :=
  {| nonzero := true; content_type := None; stream := bytes; pos := 0%nat |}.

(** A string of [n] bytes. *)
Fixpoint blob (n : nat) : string :=
  match n with
  | O => EmptyString
  | S n' => String "x" (blob n')
  end.

(** The GIF scenario of the specification: an ingested GIF of 1,000,000
    bytes with an MP4 rendition of 400,000 bytes and an OGV rendition of
    600,000 bytes, the lock cleared. *)
Definition gif_item : File :=
  {| hash := "R0lGODlhAQAB"; original := "R0lGODlhAQAB.gif";
     compression := 1000000; ip := "203.0.113.7" |}.

Definition gif_scenario : @World production :=
  production_world
    (<[ "/srv/media/R0lGODlhAQAB.gif" := blob (Z.to_nat 1000000) ]>
      (<[ "/srv/media/R0lGODlhAQAB.mp4" := blob (Z.to_nat 400000) ]>
       (<[ "/srv/media/R0lGODlhAQAB.ogv" := blob (Z.to_nat 600000) ]> ∅)))
    ({[ "R0lGODlhAQAB" := gif_item ]})
    ({[ "mediacrush.gifqueue" := RList [] ]})
    1000000.

(** The stored four bytes [PNG!] with their record. *)
Definition png_item : File :=
  {| hash := "_RwAcbWQm7W_"; original := "_RwAcbWQm7W_.png";
     compression := 4; ip := "203.0.113.7" |}.

Definition png_world : @World production :=
  production_world
    ({[ "/srv/media/_RwAcbWQm7W_.png" := "PNG!" ]})
    ({[ "_RwAcbWQm7W_" := png_item ]})
    (∅)
    4.

(** A record whose original name ends in a key of [processing_needed]. *)
Definition mime_named_item : File :=
  {| hash := "abc"; original := "abc.image/gif";
     compression := 10; ip := "203.0.113.7" |}.

Definition mime_named_world : @World production :=
  production_world
    (<[ "/srv/media/abc.image/gif" := blob 10 ]>
      (<[ "/srv/media/abc.video/mp4" := blob 4 ]>
       (<[ "/srv/media/abc.video/ogv" := blob 6 ]> ∅)))
    ({[ "abc" := mime_named_item ]})
    (∅)
    0.

(** A failed job: no lock, the error marker set. *)
Definition failed_world : @World production :=
  production_world ∅ ∅ {[ "mediacrush.abc.error" := RString "transcode-failed" ]} 0.

(** The world after a first upload of the four bytes [PNG!] as [a.png]. *)
Definition once_uploaded : @World production :=
  (@upload production (plain_upload "PNG!") "a.png" (empty_world production 0)).2.


(** ** [URLFile]: a download spooled into a temporary file *)

(** What [requests.get(url, stream=True)] answers: the status, the headers
    and the chunks [iter_content] yields. *)
Record response : Type := {
  status_code : Z;
  headers : list (string * string);
  iter_content : list string
}.

(** The bytes of the answer: its chunks, one after the other. *)
Definition body (r : response) : string :=
  fold_right String.append EmptyString (iter_content r).

(** [name in r.headers] and [r.headers[name]]: the keys of the headers of
    [requests] compare without regard to case. *)
Fixpoint header (name : string) (hs : list (string * string)) : option string :=
  match hs with
  | [] => None
  | (k, v) :: rest =>
      if String.eqb (PyStr.lower k) (PyStr.lower name) then Some v
      else header name rest
  end.

(** [n] zero bytes. *)
Fixpoint zeros (n : nat) : string :=
  match n with
  | O => EmptyString
  | S n' => String "000" (zeros n')
  end.

(** [s[:n]] with the bound as a binary number. *)
Fixpoint take_N (s : string) (n : N) : string :=
  match s with
  | EmptyString => EmptyString
  | String c r => if (n =? 0)%N then EmptyString else String c (take_N r (N.pred n))
  end.

Module URLFile.

(** The attributes [filename] and [content_type] ([None] in the class) and
    the temporary file [self.f]: its bytes and its cursor. *)
Record t : Type := {
  filename : option string;
  content_type : option string;
  buffer : string;
  cursor : nat
}.

(** [URLFile()] *)
Definition init : t :=
  {| filename := None; content_type := None; buffer := EmptyString; cursor := 0%nat |}.

(** The bytes from the cursor on. *)
Definition rest (u : t) : string := PyStr.drop (cursor u) (buffer u).

(** [self.f.write(data)]: the bytes go at the cursor, over what is there;
    a cursor beyond the end leaves a gap of zero bytes. *)
Definition write (data : string) (u : t) : t :=
  let gap := zeros (cursor u - String.length (buffer u)) in
  {| filename := filename u;
     content_type := content_type u;
     buffer := PyStr.take (cursor u) (buffer u +:+ gap) +:+ data
               +:+ PyStr.drop (cursor u + String.length data) (buffer u);
     cursor := (cursor u + String.length data)%nat |}.

(** [self.f.read(n)] *)
Definition read (n : N) (u : t) : string * t :=
  let chunk := take_N (rest u) n in
  (chunk,
   {| filename := filename u; content_type := content_type u;
      buffer := buffer u;
      cursor := (cursor u + String.length chunk)%nat |}).

(** The [while True] loop of [save]: what has been written to the
    destination when the loop breaks.  [None]: the loop is still running
    after [fuel] iterations. *)
Fixpoint copy (fuel : nat) (bufsize : N) (u : t) (written : string) :
    option (string * t) :=
  match fuel with
  | O => None
  | S fuel' =>
      let '(cpbuffer, u') := read bufsize u in
      if negb (String.eqb cpbuffer EmptyString)
      then copy fuel' bufsize u' (written +:+ cpbuffer)
      else Some (written, u')
  end.

(** [download], given the answer [r] of [requests.get(url, stream=True)]. *)
Definition download (r : response) (url : string) (u : t) : res (bool * t) :=
  let u := fold_left (fun u chunk => write chunk u) (iter_content r) u in
  if status_code r =? 404 then Ok (false, u)
  else
    let u :=
      match header "content-type" (headers r) with
      | Some ct =>
          {| filename := filename u; content_type := Some ct;
             buffer := buffer u; cursor := cursor u |}
      | None => u
      end in
    res_map
      (fun name =>
         (true,
          {| filename := Some name; content_type := content_type u;
             buffer := buffer u; cursor := cursor u |}))
      (PyStr.index (rev (PyStr.split "/" url)) 0).

Section Save.

Context `{C : Collaborators}.

(** [save].  The directories of the file system are not part of the
    [World]: whether [open(path, "w")] succeeds (the directory of [path]
    exists and can be written, [path] is not empty and names no directory)
    is the answer [can_open path] of the operating system, an input like
    the answer of the GET is for [download].  When it fails, [open] raises
    [IOError] before anything is read or written.  When it succeeds, it
    empties the destination, the loop copies chunks of [bufsize] bytes,
    and the file is flushed and closed.  [None]: the loop is still running
    after [fuel] iterations. *)
Definition save (can_open : string -> bool) (fuel : nat) (u : t) (path : string)
    (w : World) : option (res t * World) :=
  let bufsize := (1024 * 1024)%N in
  if can_open path then
    let w := set_fs (insert path EmptyString) w in
    match copy fuel bufsize u EmptyString with
    | Some (written, u') => Some (Ok u', set_fs (insert path written) w)
    | None => None
    end
  else Some (Raise IOError, w).

End Save.

End URLFile.

(** A [URLFile] as the file object [upload] receives: [__getattr__] hands
    [seek], [tell] and [read] to the temporary file, [content_type] is the
    object's own attribute, and an instance of a class without
    [__nonzero__] or [__len__] is truthy. *)
Definition as_upload (u : URLFile.t) : upload_file :=
  {| nonzero := true;
     content_type := URLFile.content_type u;
     stream := URLFile.buffer u;
     pos := URLFile.cursor u |}.

(** ** Character classes *)

(** The characters of URL-safe base64, padding excluded. *)
Definition urlsafe_alphabet : string :=
  "ABCDEFGHIJKLMNOPQRSTUVWXYZabcdefghijklmnopqrstuvwxyz0123456789-_".

(** Every character of [s] is one of [alphabet]. *)
Fixpoint chars_in (alphabet s : string) : bool :=
  match s with
  | EmptyString => true
  | String c r => PyStr.contains c alphabet && chars_in alphabet r
  end.

(** ** More concrete inputs for the examples *)

(** The answer to a GET of a small PNG, in two chunks. *)
Definition png_response : response :=
  {| status_code := 200;
     headers := [("Content-Length", "4"); ("Content-Type", "image/png")];
     iter_content := ["PN"; "G!"] |}.

Definition missing_response : response :=
  {| status_code := 404;
     headers := [("Content-Type", "text/html")];
     iter_content := ["<h1>Not Found</h1>"] |}.

(** A record whose original name has no dot. *)
Definition dotless_item : File :=
  {| hash := "abc"; original := "abc"; compression := 10; ip := "203.0.113.7" |}.

(** A record named after a key of [processing_needed], with compression 0. *)
Definition zero_item : File :=
  {| hash := "abc"; original := "abc.image/gif";
     compression := 0; ip := "203.0.113.7" |}.

Definition zero_world : @World production :=
  production_world
    ({[ "/srv/media/abc.image/gif" := EmptyString ]})
    ({[ "abc" := zero_item ]})
    (∅)
    0.

(** [mime_named_world] without the original blob. *)
Definition orphan_world : @World production :=
  production_world
    ({[ "/srv/media/abc.video/mp4" := blob 4 ]})
    ({[ "abc" := mime_named_item ]})
    (∅)
    0.

(** A job in progress: the lock is set, and a stale error marker too. *)
Definition locked_world : @World production :=
  production_world ∅ ∅
    (<[ "mediacrush.abc.lock" := RString "1" ]>
       {[ "mediacrush.abc.error" := RString "transcode-failed" ]})
    0.
(** ** More of the specification's vocabulary *)

(** "for every allowed-extension upload outside debug mode, the usage is
    recorded". *)
Definition usage_always_recorded `{C : Collaborators} : Prop :=
  forall f filename fn w,
    resulting_filename f filename = Ok fn ->
    has_extension_in EXTENSIONS fn ->
    debug = false ->
    rl (upload f filename w).2 = rate_limit_update (source_length f) (rl w).

(** A form field sent without a filename: the [FileStorage] is falsy, its
    declared type is that of the field. *)
Definition nameless_upload : upload_file :=
  {| nonzero := false; content_type := Some "image/png";
     stream := "PNG!"; pos := 0%nat |}.

(** The last character of [a] is a slash. *)
Definition ends_in_slash (a : string) : bool :=
  match String.get (String.length a - 1) a with
  | Some "/"%char => true
  | _ => false
  end.

(** What stands in front of a name joined to [folder]: nothing for the
    empty folder, the folder itself when it ends in a slash, the folder
    and a slash otherwise. *)
Definition directory_prefix (folder : string) : string :=
  match folder with
  | EmptyString => EmptyString
  | _ => if ends_in_slash folder then folder else folder +:+ "/"
  end.

(** A file system whose only directory is [/srv/media]: a file can be
    opened for writing directly in it, and nowhere else. *)
Definition media_folder_only (path : string) : bool :=
  match PyStr.rcut "/" path with
  | Some (dir, base) =>
      String.eqb dir "/srv/media" && negb (String.eqb base EmptyString)
  | None => false
  end.

(** * Properties *)

(** ** Checks of the string and encoding primitives *)

Example split_mime : PyStr.split "/" "image/gif" = ["image"; "gif"].
Proof. reflexivity. Qed.

Example rsplit1_two_dots : PyStr.rsplit1 "." "a.tar.GZ" = ["a.tar"; "GZ"].
Proof. reflexivity. Qed.

Example rsplit1_no_dot : PyStr.rsplit1 "." "README" = ["README"].
Proof. reflexivity. Qed.

Example format_pair : PyStr.format "%s.%s" ["abc"; "png"] = Ok "abc.png".
Proof. reflexivity. Qed.

Example path_join_plain : PyStr.path_join "/srv/media" "abc.png" = "/srv/media/abc.png".
Proof. reflexivity. Qed.

Example b64_Man : Base64.b64encode "Man" = "TWFu".
Proof. reflexivity. Qed.

Example b64_Ma : Base64.b64encode "Ma" = "TWE=".
Proof. reflexivity. Qed.

Example b64_M : Base64.b64encode "M" = "TQ==".
Proof. reflexivity. Qed.

Example b64_plus_slash :
  Base64.b64encode (String (ascii_of_N 251) (String (ascii_of_N 255) EmptyString)) = "+/8=".
Proof. reflexivity. Qed.

Example extension_upper : extension "holiday.JPG" = Ok "jpg".
Proof. reflexivity. Qed.

Example extension_no_dot : extension "README" = Raise IndexError.
Proof. reflexivity. Qed.

Example allowed_png : allowed_file "cat.png" = Ok true.
Proof. vm_compute. reflexivity. Qed.

Example allowed_exe : allowed_file "cat.exe" = Ok false.
Proof. vm_compute. reflexivity. Qed.

Example gif_not_a_table_key : processing_needed !! "gif" = None.
Proof. vm_compute. reflexivity. Qed.

Example gif_mime_is_a_table_key :
  formats <$> processing_needed !! "image/gif" = Some ["video/mp4"; "video/ogv"; "video/webm"].
Proof. vm_compute. reflexivity. Qed.

(** The test suite of RFC 1321. *)
Example md5_empty : MD5.hexdigest EmptyString = "d41d8cd98f00b204e9800998ecf8427e".
Proof. vm_compute. reflexivity. Qed.

Example md5_a : MD5.hexdigest "a" = "0cc175b9c0f1b6a831c399e269772661".
Proof. vm_compute. reflexivity. Qed.

Example md5_abc : MD5.hexdigest "abc" = "900150983cd24fb0d6963f7d28e17f72".
Proof. vm_compute. reflexivity. Qed.

Example md5_message_digest :
  MD5.hexdigest "message digest" = "f96b697d7cb7938d525a2f31aaf161d0".
Proof. vm_compute. reflexivity. Qed.

Example md5_two_blocks :
  MD5.hexdigest
    "12345678901234567890123456789012345678901234567890123456789012345678901234567890"
  = "57edf4a22be3c955ac49da2e2107b67a".
Proof. vm_compute. reflexivity. Qed.

(** Both replacements of [to_id] at work. *)
Example to_id_slash : to_id (MD5.digest "PNG!") = "_RwAcbWQm7W_".
Proof. vm_compute. reflexivity. Qed.

Example to_id_plus : to_id (MD5.digest "message digest") = "-WtpfXy3k41S".
Proof. vm_compute. reflexivity. Qed.

(** A pair is its first component and its second. *)
Lemma pair_of_fst {A B : Type} (p : A * B) (a : A) : p.1 = a -> p = (a, p.2).
Proof. destruct p. cbn. now intros ->. Qed.

(** ** Strings: cuts, formats, extensions *)

Lemma append_cons (c : ascii) (s t : string) : String c s +:+ t = String c (s +:+ t).
Proof. reflexivity. Qed.

Lemma append_empty_l (s : string) : EmptyString +:+ s = s.
Proof. reflexivity. Qed.

Lemma append_empty_r (s : string) : s +:+ EmptyString = s.
Proof.
  induction s as [|c s IH]; [reflexivity |]. now rewrite append_cons, IH.
Qed.

Lemma append_assoc (a b c : string) : (a +:+ b) +:+ c = a +:+ (b +:+ c).
Proof.
  induction a as [|x a IH]; [reflexivity |]. now rewrite !append_cons, IH.
Qed.

(** A string is cut exactly when it contains the separator. *)
Lemma rcut_None (sep : ascii) (s : string) :
  PyStr.rcut sep s = None <-> PyStr.contains sep s = false.
Proof.
  induction s as [|c s IH]; simpl; [tauto |].
  destruct (PyStr.rcut sep s) as [[a b]|].
  - split; [discriminate |]. intros H. apply orb_false_iff in H as [_ H].
    apply IH in H. discriminate.
  - destruct IH as [IH _]. rewrite (IH eq_refl), orb_false_r.
    destruct (Ascii.eqb c sep); split; congruence.
Qed.

Lemma extension_without_dot (fn : string) :
  PyStr.contains "." fn = false -> extension fn = Raise IndexError.
Proof.
  intros H. apply rcut_None in H. unfold extension, PyStr.rsplit1. now rewrite H.
Qed.

Lemma extension_with_dot (fn : string) :
  PyStr.contains "." fn = true -> exists e, extension fn = Ok e.
Proof.
  intros H. unfold extension, PyStr.rsplit1.
  destruct (PyStr.rcut "." fn) as [[a b]|] eqn:E.
  - eexists. reflexivity.
  - apply rcut_None in E. congruence.
Qed.

(** [allowed_file] never raises. *)
Lemma allowed_file_total (fn : string) : exists b, allowed_file fn = Ok b.
Proof.
  unfold allowed_file. destruct (PyStr.contains "." fn) eqn:E.
  - destruct (extension_with_dot fn E) as [e ->]. eexists. reflexivity.
  - eexists. reflexivity.
Qed.

Lemma allowed_file_true (fn : string) :
  allowed_file fn = Ok true <-> has_extension_in EXTENSIONS fn.
Proof.
  unfold allowed_file, has_extension_in. split.
  - destruct (PyStr.contains "." fn) eqn:E; [| discriminate].
    destruct (extension fn) as [e|x]; simpl; [| discriminate].
    intros H. exists e. split; [reflexivity |].
    injection H as H. now apply bool_decide_eq_true in H.
  - intros (e & He & Hin).
    destruct (PyStr.contains "." fn) eqn:E.
    + rewrite He. simpl. f_equal. now apply bool_decide_eq_true.
    + rewrite (extension_without_dot fn E) in He. discriminate.
Qed.

Lemma allowed_file_false (fn : string) :
  allowed_file fn = Ok false <-> ~ has_extension_in EXTENSIONS fn.
Proof.
  split.
  - intros H Hin. apply allowed_file_true in Hin. congruence.
  - intros H. destruct (allowed_file_total fn) as [[|] Hb]; [| exact Hb].
    apply allowed_file_true in Hb. contradiction.
Qed.

(** The code's set is the specification's set and [jpe]. *)
Lemma EXTENSIONS_spec : EXTENSIONS = SPEC_EXTENSIONS ∪ {[ "jpe" ]}.
Proof.
  unfold EXTENSIONS, SPEC_EXTENSIONS, VIDEO_EXTENSIONS, AUDIO_EXTENSIONS.
  apply set_eq. intros x. set_solver.
Qed.

Lemma format_pair_eq (a b : string) :
  PyStr.format "%s.%s" [a; b] = Ok (a +:+ "." +:+ b).
Proof.
  change (Ok (a +:+ String "." (b +:+ EmptyString)) = Ok (a +:+ "." +:+ b)).
  now rewrite append_empty_r.
Qed.

Lemma format_lock (a : string) : PyStr.format "%s.lock" [a] = Ok (a +:+ ".lock").
Proof. reflexivity. Qed.

Lemma format_error (a : string) : PyStr.format "%s.error" [a] = Ok (a +:+ ".error").
Proof. reflexivity. Qed.

(** A prefix without [%] passes through [%]-formatting untouched. *)
Lemma format_plain_prefix (p fmt : string) (args : list string) :
  PyStr.contains "%" p = false ->
  PyStr.format (p +:+ fmt) args = res_map (String.append p) (PyStr.format fmt args).
Proof.
  induction p as [|c p IH]; intros H.
  - rewrite append_empty_l. destruct (PyStr.format fmt args); reflexivity.
  - simpl in H. apply orb_false_iff in H as [Hc Hp]. rewrite append_cons.
    assert (Hstep : PyStr.format (String c (p +:+ fmt)) args
                    = res_map (String c) (PyStr.format (p +:+ fmt) args)).
    { destruct c as [[] [] [] [] [] [] [] []]; try reflexivity. discriminate Hc. }
    change (PyStr.format (String c (p +:+ fmt)) args =
            res_map (String.append (String c p)) (PyStr.format fmt args)).
    rewrite Hstep, (IH Hp). destruct (PyStr.format fmt args); reflexivity.
Qed.

(** ** [upload], branch by branch *)

Section UploadBranches.

Context `{C : Collaborators}.

Lemma get_hash_digest (f : upload_file) : (get_hash f).1 = md5 (stream f).
Proof. reflexivity. Qed.

Lemma file_length_length (f : upload_file) : (file_length f).1 = source_length f.
Proof. reflexivity. Qed.

(** A falsy file object or a filename that is not allowed: the [else]
    branch, and nothing is touched. *)
Lemma upload_rejected (f : upload_file) (filename fn : string) (w : World) :
  resulting_filename f filename = Ok fn ->
  nonzero f = false \/ allowed_file fn = Ok false ->
  upload f filename w = (Ok (Status "no" 415), w).
Proof.
  intros Hfn H. unfold upload, bind, lift, ret. rewrite Hfn.
  destruct (nonzero f); destruct H as [H|H]; try discriminate;
    try rewrite H; reflexivity.
Qed.

Lemma rate_gate_run (f : upload_file) (w : World) :
  rate_gate f w =
    (Ok (negb debug && rate_limit_exceeded (rl (gated f w)),
         if debug then f else seek_start (seek_end f)),
     gated f w).
Proof.
  unfold rate_gate, gated. destruct debug; reflexivity.
Qed.

(** An accepted upload: the gate, the duplicate check, the store. *)
Lemma upload_accepted (f : upload_file) (filename fn ext : string) (w : World) :
  resulting_filename f filename = Ok fn ->
  nonzero f = true ->
  allowed_file fn = Ok true ->
  extension fn = Ok ext ->
  upload f filename w =
    if negb debug && rate_limit_exceeded (rl (gated f w))
    then (Ok (Status "ratelimit" 420), gated f w)
    else if bool_decide (is_Some (fs (gated f w) !! storage_path f ext))
         then (Ok (Status (to_id (md5 (stream f))) 409), gated f w)
         else store_new f ext (gated f w).
Proof.
  intros Hfn Hnz Hal Hext. unfold upload.
  unfold bind at 1. unfold lift at 1. rewrite Hfn.
  unfold bind at 1. rewrite Hnz. unfold lift at 1. rewrite Hal.
  unfold bind at 1. rewrite rate_gate_run.
  destruct (negb debug && rate_limit_exceeded (rl (gated f w))); [reflexivity |].
  set (g := if debug then f else seek_start (seek_end f)).
  assert (Hg : stream g = stream f) by (unfold g; destruct debug; reflexivity).
  generalize (gated f w). intros v.
  unfold get_hash, read. cbn [fst snd seek_start stream pos PyStr.drop].
  rewrite Hg. unfold bind at 1. unfold lift at 1. rewrite Hext.
  unfold bind at 1. unfold lift at 1. rewrite format_pair_eq.
  unfold bind at 1. unfold os_path_exists at 1.
  fold (storage_path f ext).
  destruct (bool_decide (is_Some (fs v !! storage_path f ext))) eqn:E; [reflexivity |].
  unfold bind at 1. unfold save, read.
  cbn [fst snd seek_start seek_end stream pos PyStr.drop]. rewrite Hg.
  unfold bind at 1. unfold os_path_getsize at 1.
  cbn [fs set_fs]. rewrite lookup_insert_eq.
  fold (source_length f). fold (new_record f ext).
  unfold bind at 1. unfold File_save at 1.
  unfold bind at 1. unfold r_lpush at 1. unfold store_new, pushed.
  cbn [kv set_fs set_files hash new_record].
  destruct (kv v !! _k "gifqueue") as [[q|l]|]; reflexivity.
Qed.

Lemma gated_fs (f : upload_file) (w : World) : fs (gated f w) = fs w.
Proof. unfold gated. destruct debug; reflexivity. Qed.

Lemma gated_files (f : upload_file) (w : World) : files (gated f w) = files w.
Proof. unfold gated. destruct debug; reflexivity. Qed.

Lemma gated_kv (f : upload_file) (w : World) : kv (gated f w) = kv w.
Proof. unfold gated. destruct debug; reflexivity. Qed.

Lemma gated_rl (f : upload_file) (w : World) :
  rl (gated f w) =
    if debug then rl w else rate_limit_update (source_length f) (rl w).
Proof. unfold gated. destruct debug; reflexivity. Qed.

Lemma store_new_rl (f : upload_file) (ext : string) (w : World) :
  rl (store_new f ext w).2 = rl w.
Proof.
  unfold store_new. destruct (pushed _ _); reflexivity.
Qed.

Lemma store_new_not_status (f : upload_file) (ext : string) (w : World)
    (token : string) (code : Z) :
  (store_new f ext w).1 <> Ok (Status token code).
Proof.
  unfold store_new. destruct (pushed _ _); discriminate.
Qed.

(** An accepted upload never answers ("no", 415). *)
Lemma upload_accepted_not_415 (f : upload_file) (filename fn : string) (w : World) :
  resulting_filename f filename = Ok fn ->
  nonzero f = true ->
  has_extension_in EXTENSIONS fn ->
  (upload f filename w).1 <> Ok (Status "no" 415).
Proof.
  intros Hfn Hnz Hin. pose proof Hin as (e & He & _).
  apply allowed_file_true in Hin.
  rewrite (upload_accepted f filename fn e w Hfn Hnz Hin He).
  destruct (negb debug && _); [discriminate |].
  destruct (bool_decide _); [discriminate |].
  apply store_new_not_status.
Qed.

End UploadBranches.

(** ** The allowed set (claims C4, C7, C10) *)

(** A declared [image/jpeg] appends [.jpe], the extension [mimetypes]
    gives it; the upload is stored. *)
Example upload_declared_jpeg :
  resulting_filename (C := production)
    {| nonzero := true; content_type := Some "image/jpeg";
       stream := "JFIF"; pos := 0%nat |} "photo" = Ok "photo.jpe" /\
  (@upload production
     {| nonzero := true; content_type := Some "image/jpeg";
        stream := "JFIF"; pos := 0%nat |} "photo" (empty_world production 0)).1
  = Ok (Identifier "mvIf2_MjKJ-l").
Proof. vm_compute. split; reflexivity. Qed.

(** A declared content type without a slash that [mimetypes] does not know
    has no resulting filename: the fallback [split("/")[1]] raises. *)
Example upload_bare_content_type :
  (@upload production
     {| nonzero := true; content_type := Some "gif";
        stream := "GIF89a"; pos := 0%nat |} "a.gif" png_world).1
  = Raise IndexError.
Proof. vm_compute. reflexivity. Qed.

Lemma jpe_outside_spec_set : "jpe" ∉ SPEC_EXTENSIONS.
Proof. apply (bool_decide_eq_false_1 _). vm_compute. reflexivity. Qed.

Lemma exe_outside_extensions : ~ has_extension_in EXTENSIONS "setup.exe".
Proof.
  intros (e & He & Hin). vm_compute in He. injection He as <-.
  revert Hin. apply (bool_decide_eq_false_1 _). vm_compute. reflexivity.
Qed.

(** C4, as the specification states it, fails: [jpe] is not in the listed
    set, and an upload named [a.jpe] is stored, not rejected. *)
Lemma spec_set_misses_jpe :
  ~ @rejects_unless_extension_in development SPEC_EXTENSIONS.
Proof.
  intros H.
  specialize (H (plain_upload "GIF89a") "a.jpe" "a.jpe" (empty_world development 0) eq_refl).
  assert (Hout : ~ @has_extension_in SPEC_EXTENSIONS "a.jpe").
  { intros (e & He & Hin). vm_compute in He. injection He as <-.
    exact (jpe_outside_spec_set Hin). }
  specialize (H Hout). vm_compute in H. discriminate H.
Qed.

(** C4, amended: [upload] answers ("no", 415) exactly when the file object
    is falsy or the resulting filename has no extension (lower-cased) in
    the listed set extended with [jpe]; no other extension is accepted. *)
Theorem upload_rejects_unless_allowed `{C : Collaborators}
    (f : upload_file) (filename fn : string) (w : World) :
  resulting_filename f filename = Ok fn ->
  ((upload f filename w).1 = Ok (Status "no" 415) <->
   nonzero f = false \/ ~ has_extension_in (SPEC_EXTENSIONS ∪ {[ "jpe" ]}) fn).
Proof.
  intros Hfn. rewrite <- EXTENSIONS_spec. split.
  - intros H. destruct (nonzero f) eqn:Hnz; [right | left; reflexivity].
    intros Hin. exact (upload_accepted_not_415 f filename fn w Hfn Hnz Hin H).
  - intros H. rewrite (upload_rejected f filename fn w Hfn); [reflexivity |].
    destruct H as [H|H]; [left; exact H | right; now apply allowed_file_false].
Qed.

Lemma upload_rejects_unless_allowed_witness :
  (@upload production (plain_upload "MZ") "setup.exe" (empty_world production 0)).1
  = Ok (Status "no" 415).
Proof.
  apply (proj2 (@upload_rejects_unless_allowed production (plain_upload "MZ")
                  "setup.exe" "setup.exe" (empty_world production 0) eq_refl)).
  right. rewrite <- EXTENSIONS_spec. exact exe_outside_extensions.
Defined.

(** C7: an upload whose resulting filename has no allowed extension answers
    ("no", 415) and leaves the whole world as it was: blobs, records, redis
    keys (queue, lock and error markers), recorded usage and output. *)
Theorem upload_unsupported_frame `{C : Collaborators}
    (f : upload_file) (filename fn : string) (w : World) :
  resulting_filename f filename = Ok fn ->
  ~ has_extension_in EXTENSIONS fn ->
  upload f filename w = (Ok (Status "no" 415), w).
Proof.
  intros Hfn Hout. apply (upload_rejected f filename fn w Hfn).
  right. now apply allowed_file_false.
Qed.

Lemma upload_unsupported_frame_witness :
  @upload production (plain_upload "MZ") "setup.exe" png_world
  = (Ok (Status "no" 415), png_world).
Proof.
  apply (@upload_unsupported_frame production (plain_upload "MZ")
           "setup.exe" "setup.exe" png_world eq_refl).
  exact exe_outside_extensions.
Defined.

(** C10: when the resulting filename has no dot, [extension] would raise
    [IndexError], but [allowed_file] answers [False] without evaluating it,
    and [upload] returns ("no", 415) instead of raising. *)
Theorem upload_without_dot `{C : Collaborators}
    (f : upload_file) (filename fn : string) (w : World) :
  resulting_filename f filename = Ok fn ->
  PyStr.contains "." fn = false ->
  extension fn = Raise IndexError /\
  allowed_file fn = Ok false /\
  upload f filename w = (Ok (Status "no" 415), w).
Proof.
  intros Hfn Hdot.
  assert (Hal : allowed_file fn = Ok false) by (unfold allowed_file; now rewrite Hdot).
  split; [now apply extension_without_dot |]. split; [exact Hal |].
  apply (upload_rejected f filename fn w Hfn). now right.
Qed.

Lemma upload_without_dot_witness :
  extension "README" = Raise IndexError /\
  allowed_file "README" = Ok false /\
  @upload production (plain_upload "hello") "README" png_world
  = (Ok (Status "no" 415), png_world).
Proof.
  apply (@upload_without_dot production (plain_upload "hello") "README" "README"
           png_world); reflexivity.
Defined.

(** ** The rate limiter (claim C8) *)

(** C8, as the specification states it, fails: a falsy file object whose
    resulting filename [.png] is allowed is answered ("no", 415) before
    the rate limiter is consulted, and its four bytes are not recorded. *)
Lemma falsy_upload_not_recorded : ~ @usage_always_recorded production.
Proof.
  intros H.
  assert (Hin : has_extension_in EXTENSIONS ".png").
  { exists "png". split; [reflexivity |].
    apply (bool_decide_eq_true_1 _). vm_compute. reflexivity. }
  specialize (H nameless_upload EmptyString ".png" (empty_world production 0)
                eq_refl Hin eq_refl).
  vm_compute in H. discriminate H.
Qed.

(** C8, amended: for an allowed upload of a truthy file object outside
    debug mode the usage (the byte length of the source) is recorded
    whatever the outcome, the limit is checked on the usage so recorded,
    and a limited upload answers ("ratelimit", 420) with blobs, records
    and redis keys as they were; in debug mode nothing is recorded and the
    answer is never ("ratelimit", 420). *)
Theorem upload_rate_limit `{C : Collaborators}
    (f : upload_file) (filename fn : string) (w : World) :
  resulting_filename f filename = Ok fn ->
  nonzero f = true ->
  has_extension_in EXTENSIONS fn ->
  let r := (upload f filename w).1 in
  let w' := (upload f filename w).2 in
  if debug then
    rl w' = rl w /\ r <> Ok (Status "ratelimit" 420)
  else
    let usage := rate_limit_update (source_length f) (rl w) in
    rl w' = usage /\
    (r = Ok (Status "ratelimit" 420) <-> rate_limit_exceeded usage = true) /\
    (rate_limit_exceeded usage = true ->
     fs w' = fs w /\ files w' = files w /\ kv w' = kv w).
Proof.
  intros Hfn Hnz Hin. pose proof Hin as (e & He & _).
  apply allowed_file_true in Hin.
  rewrite (upload_accepted f filename fn e w Hfn Hnz Hin He).
  rewrite gated_rl. pose proof (gated_fs f w) as Hfs.
  pose proof (gated_files f w) as Hfiles. pose proof (gated_kv f w) as Hkv.
  pose proof (gated_rl f w) as Hrl.
  destruct debug; cbn [negb andb].
  - destruct (bool_decide _); cbn [fst snd].
    + split; [exact Hrl | discriminate].
    + rewrite store_new_rl. split; [exact Hrl | apply store_new_not_status].
  - destruct (rate_limit_exceeded _) eqn:E; cbn [fst snd].
    + split; [exact Hrl |]. split; [tauto |]. intros _. now rewrite Hfs, Hfiles, Hkv.
    + assert (Hno : forall x : res upload_result * World,
                 x.1 <> Ok (Status "ratelimit" 420) ->
                 (x.1 = Ok (Status "ratelimit" 420) <-> false = true)).
      { intros x Hx. split; [intros H; contradiction | discriminate]. }
      destruct (bool_decide _); cbn [fst snd].
      * split; [exact Hrl |]. split; [| discriminate].
        split; discriminate.
      * rewrite store_new_rl. split; [exact Hrl |]. split; [| discriminate].
        apply Hno, store_new_not_status.
Qed.

Lemma upload_rate_limit_witness :
  let r := (@upload production (plain_upload "PNG!") "a.png" (empty_world production 1000)).1 in
  let w' := (@upload production (plain_upload "PNG!") "a.png" (empty_world production 1000)).2 in
  @rl production w' = 1004 /\
  r = Ok (Status "ratelimit" 420) /\
  fs w' = ∅ /\ files w' = ∅ /\ kv w' = ∅.
Proof.
  assert (Hin : has_extension_in EXTENSIONS "a.png").
  { exists "png". split; [reflexivity |].
    apply (bool_decide_eq_true_1 _). vm_compute. reflexivity. }
  destruct (@upload_rate_limit production (plain_upload "PNG!") "a.png" "a.png"
              (empty_world production 1000) eq_refl eq_refl Hin) as (Hrl & Hr & Hframe).
  split; [exact Hrl |]. split; [apply Hr; reflexivity |].
  apply Hframe. reflexivity.
Defined.

(** ** Duplicates (claim C6) *)

(** C6: an upload that reaches the duplicate check (truthy file object,
    allowed extension, not rate limited) and finds its storage filename
    "<identifier>.<extension>" in the content store returns the identifier
    with status 409; no blob is written, no record saved, and no redis key
    (queue, lock) touched. *)
Theorem upload_duplicate `{C : Collaborators}
    (f : upload_file) (filename fn ext : string) (w : World) :
  resulting_filename f filename = Ok fn ->
  nonzero f = true ->
  extension fn = Ok ext ->
  ext ∈ EXTENSIONS ->
  (debug = false ->
   rate_limit_exceeded (rate_limit_update (source_length f) (rl w)) = false) ->
  is_Some (fs w !! storage_path f ext) ->
  let w' := (upload f filename w).2 in
  (upload f filename w).1 = Ok (Status (to_id (md5 (stream f))) 409) /\
  fs w' = fs w /\ files w' = files w /\ kv w' = kv w /\ stdout w' = stdout w.
Proof.
  intros Hfn Hnz He Hin Hrate Hdup.
  assert (Hal : allowed_file fn = Ok true)
    by (apply allowed_file_true; exists ext; split; assumption).
  rewrite (upload_accepted f filename fn ext w Hfn Hnz Hal He).
  assert (Hgate : negb debug && rate_limit_exceeded (rl (gated f w)) = false).
  { rewrite gated_rl. destruct debug eqn:D; [reflexivity |].
    cbn [negb andb]. now apply Hrate. }
  rewrite Hgate, gated_fs, (bool_decide_eq_true_2 _ Hdup). cbn [fst snd].
  split; [reflexivity |]. rewrite gated_fs, gated_files, gated_kv.
  repeat split. unfold gated, recorded. destruct debug; reflexivity.
Qed.

Lemma upload_duplicate_witness :
  (@upload production (plain_upload "PNG!") "b.PNG" once_uploaded).1
  = Ok (Status "_RwAcbWQm7W_" 409) /\
  fs (@upload production (plain_upload "PNG!") "b.PNG" once_uploaded).2 = fs once_uploaded /\
  files (@upload production (plain_upload "PNG!") "b.PNG" once_uploaded).2 = files once_uploaded /\
  kv (@upload production (plain_upload "PNG!") "b.PNG" once_uploaded).2 = kv once_uploaded /\
  stdout (@upload production (plain_upload "PNG!") "b.PNG" once_uploaded).2 = stdout once_uploaded.
Proof.
  apply (@upload_duplicate production (plain_upload "PNG!") "b.PNG" "b.PNG" "png"
           once_uploaded eq_refl eq_refl eq_refl).
  - apply (bool_decide_eq_true_1 _). vm_compute. reflexivity.
  - intros _. vm_compute. reflexivity.
  - apply (bool_decide_eq_true_1 _). vm_compute. reflexivity.
Defined.

(** ** The metadata record (claim C5) *)

Section RecordLifecycle.

Context `{C : Collaborators}.

(** A successful upload went through the store. *)
Lemma upload_success_inv (f : upload_file) (filename fn ext i : string)
    (w w1 : World) :
  upload f filename w = (Ok (Identifier i), w1) ->
  resulting_filename f filename = Ok fn ->
  extension fn = Ok ext ->
  store_new f ext (gated f w) = (Ok (Identifier i), w1).
Proof.
  intros Hup Hfn He.
  destruct (nonzero f) eqn:Hnz.
  2:{ rewrite (upload_rejected f filename fn w Hfn) in Hup by now left.
      discriminate. }
  destruct (allowed_file_total fn) as [[|] Hal].
  2:{ rewrite (upload_rejected f filename fn w Hfn) in Hup by now right.
      discriminate. }
  rewrite (upload_accepted f filename fn ext w Hfn Hnz Hal He) in Hup.
  destruct (negb debug && _); [discriminate |].
  destruct (bool_decide _); [discriminate | exact Hup].
Qed.

Lemma store_new_success (f : upload_file) (ext i : string) (w w1 : World) :
  store_new f ext w = (Ok (Identifier i), w1) ->
  i = to_id (md5 (stream f)) /\
  files w1 = <[i := new_record f ext]> (files w) /\
  fs w1 = <[storage_path f ext := stream f]> (fs w).
Proof.
  unfold store_new. destruct (pushed _ _); [| discriminate].
  intros [= <- <-]. repeat split.
Qed.

(** While the blob of a content under an extension is stored, another
    upload of that content under that extension saves no record. *)
Lemma upload_again_keeps_files (f : upload_file) (filename fn ext : string)
    (w : World) :
  resulting_filename f filename = Ok fn ->
  extension fn = Ok ext ->
  is_Some (fs w !! storage_path f ext) ->
  files (upload f filename w).2 = files w.
Proof.
  intros Hfn He Hdup.
  destruct (nonzero f) eqn:Hnz.
  2:{ rewrite (upload_rejected f filename fn w Hfn) by now left. reflexivity. }
  destruct (allowed_file_total fn) as [[|] Hal].
  2:{ rewrite (upload_rejected f filename fn w Hfn) by now right. reflexivity. }
  rewrite (upload_accepted f filename fn ext w Hfn Hnz Hal He).
  rewrite gated_fs, (bool_decide_eq_true_2 _ Hdup).
  destruct (negb debug && _); apply gated_files.
Qed.

End RecordLifecycle.

(** C5, as the specification states it, fails: the same bytes uploaded as
    [a.png] and then as [a.jpg] pass the duplicate check the second time
    (it looks for "<identifier>.jpg"), and the record is saved again with
    another original filename. *)
Lemma record_rewritten_under_other_extension :
  ~ @record_never_rewritten development.
Proof.
  intros H.
  specialize (H (plain_upload "GIF89a") "a.png" (empty_world development 0)
                "GsIQnUfbxyVR"
                (@upload development (plain_upload "GIF89a") "a.png"
                   (empty_world development 0)).2
                (plain_upload "GIF89a") "a.jpg").
  assert (Hfirst :
    @upload development (plain_upload "GIF89a") "a.png" (empty_world development 0)
    = (Ok (Identifier "GsIQnUfbxyVR"),
       (@upload development (plain_upload "GIF89a") "a.png"
          (empty_world development 0)).2)).
  { apply pair_of_fst. vm_compute. reflexivity. }
  specialize (H Hfirst eq_refl). vm_compute in H. discriminate H.
Qed.

(** C5, amended: the first store of a content creates the record of its
    identifier (original "<identifier>.<extension>", compression the byte
    length, the caller's address), and while that blob is stored no later
    ingestion of the same content whose resulting filename has the same
    lower-cased extension saves a record, whatever filename or content
    type it supplies.  (An ingestion of the same content under another
    allowed extension passes the duplicate check.) *)
Theorem upload_record_write_once `{C : Collaborators}
    (f1 : upload_file) (name1 fn1 ext i : string) (w0 w1 : World) :
  upload f1 name1 w0 = (Ok (Identifier i), w1) ->
  resulting_filename f1 name1 = Ok fn1 ->
  extension fn1 = Ok ext ->
  files w1 = <[i := new_record f1 ext]> (files w0) /\
  is_Some (fs w1 !! storage_path f1 ext) /\
  forall (f2 : upload_file) (name2 fn2 : string) (w : World),
    stream f2 = stream f1 ->
    resulting_filename f2 name2 = Ok fn2 ->
    extension fn2 = Ok ext ->
    is_Some (fs w !! storage_path f1 ext) ->
    files (upload f2 name2 w).2 = files w.
Proof.
  intros Hup Hfn He.
  apply (upload_success_inv f1 name1 fn1 ext i w0 w1 Hup Hfn) in He as Hst.
  apply store_new_success in Hst as (-> & Hfiles & Hfs).
  rewrite gated_files in Hfiles. split; [exact Hfiles |].
  split; [rewrite Hfs, lookup_insert_eq; eauto |].
  intros f2 name2 fn2 w Hstream Hfn2 He2 Hdup.
  apply (upload_again_keeps_files f2 name2 fn2 ext w Hfn2 He2).
  unfold storage_path in *. now rewrite Hstream.
Qed.

Lemma upload_record_write_once_witness :
  files once_uploaded
  = <["_RwAcbWQm7W_" := @new_record production (plain_upload "PNG!") "png"]> ∅ /\
  is_Some (fs once_uploaded !! @storage_path production (plain_upload "PNG!") "png") /\
  files (@upload production
           {| nonzero := true; content_type := Some "image/png";
              stream := "PNG!"; pos := 2%nat |} "again" once_uploaded).2
  = files once_uploaded.
Proof.
  destruct (@upload_record_write_once production (plain_upload "PNG!")
              "a.png" "a.png" "png" "_RwAcbWQm7W_" (empty_world production 0)
              once_uploaded)
    as (Hfiles & Hblob & Hlater).
  - apply pair_of_fst. vm_compute. reflexivity.
  - reflexivity.
  - reflexivity.
  - split; [exact Hfiles |]. split; [exact Hblob |].
    apply (Hlater _ "again" "again.png"); [reflexivity .. | exact Hblob].
Defined.

(** ** The processing status (claim C3) *)

Section Status.

Context `{C : Collaborators}.

(** Under a prefix without [%], the key [processing_status] deletes is
    the key it read. *)
Lemma deleted_key_is_error_key (id : string) :
  plain_prefix ->
  PyStr.format (_k "%s.error") [id] = Ok (_k (id +:+ ".error")).
Proof.
  intros Hp. unfold _k. rewrite (format_plain_prefix _ _ _ Hp), format_error.
  reflexivity.
Qed.

(** No lock, an error marker: the marker's value is returned and the
    marker deleted. *)
Lemma processing_status_failed (id token : string) (w : World) :
  plain_prefix ->
  kv w !! _k (id +:+ ".lock") = None ->
  kv w !! _k (id +:+ ".error") = Some (RString token) ->
  processing_status id w
  = (Ok (Some token), set_kv (delete (_k (id +:+ ".error"))) w).
Proof.
  intros Hp Hlock Herr. unfold processing_status.
  rewrite format_lock, format_error, (deleted_key_is_error_key id Hp).
  unfold bind, lift, r_exists, r_get, r_delete, ret. cbv beta iota.
  rewrite Hlock.
  assert (Hno : bool_decide (is_Some (@None rvalue)) = false)
    by (apply bool_decide_eq_false_2, is_Some_None).
  assert (Hyes : bool_decide (is_Some (Some (RString token))) = true)
    by (apply bool_decide_eq_true_2; eauto).
  repeat (progress (cbv beta iota; rewrite ?Herr, ?Hno, ?Hyes; cbn [negb])).
  reflexivity.
Qed.

(** Neither lock nor error marker: "done", and nothing changes. *)
Lemma processing_status_done (id : string) (w : World) :
  kv w !! _k (id +:+ ".lock") = None ->
  kv w !! _k (id +:+ ".error") = None ->
  processing_status id w = (Ok (Some "done"), w).
Proof.
  intros Hlock Herr. unfold processing_status.
  rewrite format_lock, format_error.
  unfold bind, lift, r_exists, ret. cbv beta iota. rewrite Hlock.
  assert (Hno : bool_decide (is_Some (@None rvalue)) = false)
    by (apply bool_decide_eq_false_2, is_Some_None).
  rewrite Hno. cbn [negb]. cbv beta iota. rewrite Herr, Hno. reflexivity.
Qed.

Lemma processing_status_locked (id : string) (w : World) :
  is_Some (kv w !! _k (id +:+ ".lock")) ->
  processing_status id w = (Ok (Some "processing"), w).
Proof.
  intros Hlock. unfold processing_status. rewrite format_lock.
  unfold bind, lift, r_exists, ret. cbv beta iota.
  rewrite (bool_decide_eq_true_2 _ Hlock). reflexivity.
Qed.

End Status.

(** C3: with the Lock Marker absent and the Error Marker holding
    "transcode-failed", the first [processing_status] returns
    "transcode-failed" and deletes the marker, and the call that follows
    it returns "done" and changes nothing (the key prefix of the
    deployment containing no [%]). *)
Theorem processing_status_consumes_error `{C : Collaborators}
    (id : string) (w : World) :
  plain_prefix ->
  kv w !! _k (id +:+ ".lock") = None ->
  kv w !! _k (id +:+ ".error") = Some (RString "transcode-failed") ->
  let first := processing_status id w in
  first.1 = Ok (Some "transcode-failed") /\
  kv first.2 = delete (_k (id +:+ ".error")) (kv w) /\
  kv first.2 !! _k (id +:+ ".error") = None /\
  processing_status id first.2 = (Ok (Some "done"), first.2).
Proof.
  intros Hp Hlock Herr.
  rewrite (processing_status_failed id "transcode-failed" w Hp Hlock Herr).
  cbn [fst snd kv set_kv]. split; [reflexivity |]. split; [reflexivity |].
  split; [apply lookup_delete_eq |].
  apply processing_status_done; cbn [kv set_kv].
  - rewrite lookup_delete. now destruct (decide _).
  - apply lookup_delete_eq.
Qed.

Lemma processing_status_consumes_error_witness :
  (@processing_status production "abc" failed_world).1 = Ok (Some "transcode-failed") /\
  kv (@processing_status production "abc" failed_world).2
  = delete "mediacrush.abc.error" (kv failed_world) /\
  kv (@processing_status production "abc" failed_world).2 !! "mediacrush.abc.error" = None /\
  @processing_status production "abc" (@processing_status production "abc" failed_world).2
  = (Ok (Some "done"), (@processing_status production "abc" failed_world).2).
Proof.
  apply (@processing_status_consumes_error production "abc" failed_world).
  - reflexivity.
  - vm_compute. reflexivity.
  - vm_compute. reflexivity.
Defined.

(** ** The identifier (claim C9) *)

Lemma replace_is_urlsafe (s : string) :
  PyStr.replace "+" "-" (PyStr.replace "/" "_" s) = urlsafe s.
Proof.
  induction s as [|c s IH]; [reflexivity |]. simpl. rewrite IH. f_equal.
  unfold urlsafe_char.
  destruct (Ascii.eqb_spec c "/") as [-> | Hslash]; [reflexivity |].
  destruct (Ascii.eqb c "+"); reflexivity.
Qed.

Lemma take_urlsafe (n : nat) (s : string) :
  urlsafe (PyStr.take n s) = PyStr.take n (urlsafe s).
Proof.
  revert s. induction n as [|n IH]; intros [|c s]; try reflexivity.
  simpl. now rewrite IH.
Qed.

Lemma urlsafe_char_plain (c : ascii) :
  Ascii.eqb (urlsafe_char c) "/" = false /\ Ascii.eqb (urlsafe_char c) "+" = false.
Proof.
  unfold urlsafe_char.
  destruct (Ascii.eqb c "+") eqn:Ep; [split; reflexivity |].
  destruct (Ascii.eqb c "/") eqn:Es; [split; reflexivity |].
  split; assumption.
Qed.

Lemma urlsafe_plain (s : string) :
  PyStr.contains "/" (urlsafe s) = false /\ PyStr.contains "+" (urlsafe s) = false.
Proof.
  induction s as [|c s [IHs IHp]]; [split; reflexivity |]. simpl.
  destruct (urlsafe_char_plain c) as [-> ->]. now rewrite IHs, IHp.
Qed.

(** C9: whatever the cursor of the stream, the identifier [upload] derives
    is the specification's [deriveIdentifier] of the bytes (the first 12
    characters of the URL-safe base64 of their hash), and it contains
    neither [/] nor [+]. *)
Theorem identifier_of_content `{C : Collaborators}
    (truth : bool) (ct : option string) (bytes : string) (cursor : nat) :
  let f := {| nonzero := truth; content_type := ct; stream := bytes; pos := cursor |} in
  let identifier := to_id (get_hash f).1 in
  identifier = deriveIdentifier bytes /\
  PyStr.contains "/" identifier = false /\
  PyStr.contains "+" identifier = false.
Proof.
  intros f identifier.
  assert (Hid : identifier = deriveIdentifier bytes).
  { unfold identifier, deriveIdentifier, to_id. rewrite get_hash_digest.
    rewrite replace_is_urlsafe. apply take_urlsafe. }
  rewrite Hid. split; [reflexivity |].
  unfold deriveIdentifier. rewrite <- take_urlsafe. apply urlsafe_plain.
Qed.

(** ** Compression accounting (claim C1) *)

(** The arithmetic of [compression_rate] on the sizes of the GIF scenario:
    [round(1 / (400000 / float(1000000)), 2)] is the float 2.5. *)
Example ratio_of_scenario_sizes :
  res_map PyFloat.round2
    (res_bind (PyFloat.div (PyFloat.of_Z 400000) (PyFloat.of_Z 1000000))
       (PyFloat.div (PyFloat.of_Z 1)))
  = Ok (S754_finite false 5629499534213120 (-51)).
Proof. vm_compute. reflexivity. Qed.

Example float_2_5 : SFdiv PyFloat.prec PyFloat.emax (PyFloat.of_Z 5) (PyFloat.of_Z 2)
                    = S754_finite false 5629499534213120 (-51).
Proof. vm_compute. reflexivity. Qed.

(** Halfway cases go away from zero: [round(0.125, 2)] is [0.13]. *)
Example round2_half :
  PyFloat.round2 (SFdiv PyFloat.prec PyFloat.emax (PyFloat.of_Z 1) (PyFloat.of_Z 8))
  = SFdiv PyFloat.prec PyFloat.emax (PyFloat.of_Z 13) (PyFloat.of_Z 100).
Proof. vm_compute. reflexivity. Qed.

(** [round(2.675, 2)] is [2.67]: the float nearest 2.675 lies below it. *)
Example round2_2_675 :
  PyFloat.round2 (SFdiv PyFloat.prec PyFloat.emax (PyFloat.of_Z 2675) (PyFloat.of_Z 1000))
  = SFdiv PyFloat.prec PyFloat.emax (PyFloat.of_Z 267) (PyFloat.of_Z 100).
Proof. vm_compute. reflexivity. Qed.

Lemma blob_length (n : nat) : String.length (blob n) = n.
Proof. induction n as [|n IH]; simpl; [reflexivity | now rewrite IH]. Qed.

(** No extension [upload] accepts is a key of [processing_needed]: the
    keys are MIME types. *)
Lemma allowed_extension_not_a_key (ext : string) :
  ext ∈ EXTENSIONS -> processing_needed !! ext = None.
Proof.
  unfold EXTENSIONS, VIDEO_EXTENSIONS, AUDIO_EXTENSIONS. set_unfold.
  intros H. repeat (destruct H as [H|H]); subst ext; vm_compute; reflexivity.
Qed.

Section Accounting.

Context `{C : Collaborators}.

(** An extension that is not a key of the table: the rate is [0] and no
    size is read. *)
Lemma compression_rate_no_key (id ext : string) (item : File) (w : World) :
  files w !! id = Some item ->
  extension (original item) = Ok ext ->
  processing_needed !! ext = None ->
  compression_rate id w = (Ok (Int 0), w).
Proof.
  intros Hitem He Hkey. unfold compression_rate.
  unfold bind at 1. unfold File_from_hash at 1. rewrite Hitem.
  unfold bind at 1. unfold attributes, ret at 1.
  unfold bind at 1. unfold lift at 1. rewrite He, Hkey. reflexivity.
Qed.

(** Every record [upload] saves names an original with an allowed
    extension, so its rate is [0]. *)
Lemma compression_rate_of_allowed_extension (id ext : string) (item : File)
    (w : World) :
  files w !! id = Some item ->
  extension (original item) = Ok ext ->
  ext ∈ EXTENSIONS ->
  compression_rate id w = (Ok (Int 0), w).
Proof.
  intros Hitem He Hin.
  apply (compression_rate_no_key id ext item w Hitem He).
  now apply allowed_extension_not_a_key.
Qed.

End Accounting.

(** The blobs of the GIF scenario have the sizes the specification gives. *)
Example gif_scenario_sizes :
  (@os_path_getsize production "/srv/media/R0lGODlhAQAB.gif" gif_scenario).1 = Ok 1000000 /\
  (@os_path_getsize production "/srv/media/R0lGODlhAQAB.mp4" gif_scenario).1 = Ok 400000 /\
  (@os_path_getsize production "/srv/media/R0lGODlhAQAB.ogv" gif_scenario).1 = Ok 600000.
Proof.
  unfold os_path_getsize, gif_scenario, production_world. cbn [fs].
  rewrite lookup_insert_eq.
  rewrite lookup_insert_ne by discriminate. rewrite lookup_insert_eq.
  rewrite !lookup_insert_ne by discriminate. rewrite lookup_insert_eq.
  cbn [fst]. rewrite !blob_length, !Z2Nat.id by lia. repeat split.
Qed.

(** The cut of "<name>.<ext>" when [ext] has no dot. *)
Lemma rcut_append (a b : string) :
  PyStr.contains "." b = false ->
  PyStr.rcut "." (a +:+ "." +:+ b) = Some (a, b).
Proof.
  intros Hb. apply rcut_None in Hb.
  induction a as [|c a IH].
  - change (PyStr.rcut "." (String "." b) = Some (EmptyString, b)).
    simpl. now rewrite Hb.
  - rewrite append_cons. simpl. now rewrite IH.
Qed.

Lemma extension_of_allowed (name ext : string) :
  ext ∈ EXTENSIONS -> extension (name +:+ "." +:+ ext) = Ok ext.
Proof.
  intros Hin.
  assert (Hplain : PyStr.contains "." ext = false /\ PyStr.lower ext = ext).
  { revert Hin. unfold EXTENSIONS, VIDEO_EXTENSIONS, AUDIO_EXTENSIONS. set_unfold.
    intros H. repeat (destruct H as [H|H]); subst ext; split; reflexivity. }
  destruct Hplain as [Hdot Hlow].
  unfold extension, PyStr.rsplit1. rewrite (rcut_append name ext Hdot).
  cbn. now rewrite Hlow.
Qed.

Section AccountingAfterUpload.

Context `{C : Collaborators}.

(** Whatever was ingested, its rate is [0]: the record [upload] saves
    names "<identifier>.<ext>" with [ext] an allowed extension. *)
Lemma compression_rate_after_upload (f : upload_file) (name fn ext i : string)
    (w0 w1 : World) :
  upload f name w0 = (Ok (Identifier i), w1) ->
  resulting_filename f name = Ok fn ->
  extension fn = Ok ext ->
  compression_rate i w1 = (Ok (Int 0), w1).
Proof.
  intros Hup Hfn He.
  assert (Hin : ext ∈ EXTENSIONS).
  { destruct (allowed_file_total fn) as [[|] Hal].
    - apply allowed_file_true in Hal as (e & He' & Hin). congruence.
    - rewrite (upload_rejected f name fn w0 Hfn) in Hup by now right.
      discriminate. }
  apply (upload_success_inv f name fn ext i w0 w1 Hup Hfn) in He as Hst.
  apply store_new_success in Hst as (-> & Hfiles & _).
  apply (compression_rate_of_allowed_extension _ ext (new_record f ext)).
  - rewrite Hfiles. apply lookup_insert_eq.
  - apply extension_of_allowed, Hin.
  - exact Hin.
Qed.

End AccountingAfterUpload.

(** An ingested GIF declaring [image/gif]: identifier, then rate [0]. *)
Example compression_rate_of_ingested_gif :
  let f := {| nonzero := true; content_type := Some "image/gif";
              stream := "GIF89a"; pos := 0%nat |} in
  let run := @upload production f "anim" (empty_world production 0) in
  run.1 = Ok (Identifier "GsIQnUfbxyVR") /\
  original <$> files run.2 !! "GsIQnUfbxyVR" = Some "GsIQnUfbxyVR.gif" /\
  (@compression_rate production "GsIQnUfbxyVR" run.2).1 = Ok (Int 0).
Proof. vm_compute. repeat split. Qed.

(** C1 fails on the code: in the GIF scenario of the specification (a
    record of an ingested GIF of 1,000,000 bytes, renditions of 400,000
    and 600,000 bytes in storage) [compression_rate] returns the integer
    0, not 2.5: the extension [gif] is looked up in a table whose keys are
    MIME types. *)
Theorem compression_rate_gif_scenario :
  files gif_scenario !! "R0lGODlhAQAB" = Some gif_item /\
  compression gif_item = 1000000 /\
  (@os_path_getsize production "/srv/media/R0lGODlhAQAB.mp4" gif_scenario).1 = Ok 400000 /\
  (@os_path_getsize production "/srv/media/R0lGODlhAQAB.ogv" gif_scenario).1 = Ok 600000 /\
  @compression_rate production "R0lGODlhAQAB" gif_scenario = (Ok (Int 0), gif_scenario).
Proof.
  assert (Hitem : files gif_scenario !! "R0lGODlhAQAB" = Some gif_item).
  { unfold gif_scenario, production_world. cbn [files]. apply lookup_singleton_eq. }
  destruct gif_scenario_sizes as (_ & Hmp4 & Hogv).
  split; [exact Hitem |]. split; [reflexivity |].
  split; [exact Hmp4 |]. split; [exact Hogv |].
  apply (@compression_rate_of_allowed_extension production
           "R0lGODlhAQAB" "gif" gif_item gif_scenario Hitem).
  - reflexivity.
  - apply (bool_decide_eq_true_1 _). vm_compute. reflexivity.
Qed.

(** When the original's name does end in a key of the table, the rate is
    the rounded ratio: 10 bytes against renditions of 4 and 6 bytes (the
    third one missing) give 2.5. *)
Example compression_rate_mime_named :
  (@compression_rate production "abc" mime_named_world).1
  = Ok (Float (S754_finite false 5629499534213120 (-51))).
Proof. vm_compute. reflexivity. Qed.

(** ** Deletion (claim C2) *)

(** [png_world] holds the blob and the record an upload of [PNG!] as
    [a.png] leaves. *)
Example png_world_as_uploaded :
  fs once_uploaded !! "/srv/media/_RwAcbWQm7W_.png"
  = fs png_world !! "/srv/media/_RwAcbWQm7W_.png" /\
  files once_uploaded !! "_RwAcbWQm7W_" = files png_world !! "_RwAcbWQm7W_" /\
  files png_world !! "_RwAcbWQm7W_" = Some png_item.
Proof. vm_compute. repeat split. Qed.

Section Deletion.

Context `{C : Collaborators}.

Lemma f_is_unbound (path : string) :
  @read_name C [("path", path)] "f" = raise (NameError "f").
Proof.
  unfold read_name.
  assert (Hlocal : list_to_map (M := gmap string string) [("path", path)] !! "f"
                   = None).
  { cbn [list_to_map foldr]. rewrite lookup_insert_ne by discriminate.
    apply lookup_empty. }
  rewrite Hlocal.
  assert (Hglobal : bool_decide ("f" ∈ module_globals) = false)
    by (vm_compute; reflexivity).
  now rewrite Hglobal.
Qed.

(** [delete_file_storage] never reaches [os.unlink]: it prints and
    returns. *)
Lemma delete_file_storage_run (path : string) (w : World) :
  delete_file_storage path w
  = (Ok tt, set_stdout (fun out => (out ++ ["Failed to delete file " +:+ path])%list) w).
Proof.
  unfold delete_file_storage, try_except, bind. rewrite f_is_unbound.
  reflexivity.
Qed.

Lemma delete_renditions_cons (identifier f_ext : string) (rest : list string)
    (w : World) :
  delete_renditions identifier (f_ext :: rest) w
  = delete_renditions identifier rest
      (set_stdout
         (fun out => (out ++ ["Failed to delete file " +:+
                              (identifier +:+ "." +:+ f_ext)])%list) w).
Proof.
  cbn [delete_renditions]. unfold bind at 1. unfold lift at 1.
  rewrite format_pair_eq. unfold bind at 1. rewrite delete_file_storage_run.
  reflexivity.
Qed.

Lemma delete_renditions_run (identifier : string) (fmts : list string) (w : World) :
  (delete_renditions identifier fmts w).1 = Ok tt /\
  fs (delete_renditions identifier fmts w).2 = fs w /\
  files (delete_renditions identifier fmts w).2 = files w.
Proof.
  revert w. induction fmts as [|f_ext rest IH]; intros w; [repeat split |].
  rewrite delete_renditions_cons.
  destruct (IH (set_stdout
                  (fun out => (out ++ ["Failed to delete file " +:+
                                       (identifier +:+ "." +:+ f_ext)])%list) w))
    as (H1 & H2 & H3).
  rewrite H1, H2, H3. repeat split.
Qed.

(** [delete_file] removes the record and no blob. *)
Lemma delete_file_run (item : File) (ext : string) (w : World) :
  extension (original item) = Ok ext ->
  delete_file item w
  = bind match processing_needed !! ext with
         | Some entry => delete_renditions (hash item) (formats entry)
         | None => ret tt
         end
         (fun _ => File_delete item)
      (set_stdout
         (fun out => (out ++ ["Failed to delete file " +:+ original item])%list) w).
Proof.
  intros He. unfold delete_file.
  unfold bind at 1. unfold lift at 1. rewrite He.
  unfold bind at 1. rewrite delete_file_storage_run. reflexivity.
Qed.

Lemma delete_file_keeps_storage (item : File) (ext : string) (w : World) :
  extension (original item) = Ok ext ->
  (delete_file item w).1 = Ok tt /\
  fs (delete_file item w).2 = fs w /\
  files (delete_file item w).2 = delete (hash item) (files w).
Proof.
  intros He. rewrite (delete_file_run item ext w He).
  set (w1 := set_stdout _ w). unfold bind.
  destruct (processing_needed !! ext) as [entry|].
  - destruct (delete_renditions_run (hash item) (formats entry) w1) as (H1 & H2 & H3).
    destruct (delete_renditions (hash item) (formats entry) w1) as [[[]|e] w2];
      cbn [fst snd] in *; [| discriminate].
    unfold File_delete. cbn [fst snd fs files set_files].
    rewrite H2, H3. repeat split.
  - unfold ret, File_delete. cbn [fst snd fs files set_files]. repeat split.
Qed.

End Deletion.

(** C2 fails on the code: deleting the stored PNG removes its record and
    prints a failure line, and the original blob is still in storage. *)
Theorem delete_file_leaves_blob :
  let w' := (@delete_file production png_item png_world).2 in
  (@delete_file production png_item png_world).1 = Ok tt /\
  fs w' !! "/srv/media/_RwAcbWQm7W_.png" = Some "PNG!" /\
  files w' !! "_RwAcbWQm7W_" = None /\
  stdout w' = ["Failed to delete file _RwAcbWQm7W_.png"].
Proof. vm_compute. repeat split. Qed.

(** * Further properties of the code *)

(** ** Filenames and extensions *)

Lemma contains_append (c : ascii) (a b : string) :
  PyStr.contains c (a +:+ b) = PyStr.contains c a || PyStr.contains c b.
Proof.
  induction a as [|x a IH]; [reflexivity |].
  rewrite append_cons. simpl. now rewrite IH, orb_assoc.
Qed.

(** A cut is at a separator, and what follows it has none. *)
Lemma rcut_Some (sep : ascii) (s a b : string) :
  PyStr.rcut sep s = Some (a, b) ->
  s = a +:+ String sep b /\ PyStr.contains sep b = false.
Proof.
  revert a. induction s as [|c s IH]; intros a; simpl; [discriminate |].
  destruct (PyStr.rcut sep s) as [[x y]|] eqn:E.
  - intros [= <- <-]. destruct (IH x eq_refl) as [-> Hb]. now split.
  - destruct (Ascii.eqb_spec c sep) as [-> | Hne]; [| discriminate].
    intros [= <- <-]. split; [reflexivity |]. now apply rcut_None.
Qed.

Lemma lower_ascii_idempotent (c : ascii) :
  PyStr.lower_ascii (PyStr.lower_ascii c) = PyStr.lower_ascii c.
Proof. destruct c as [[] [] [] [] [] [] [] []]; reflexivity. Qed.

Lemma lower_ascii_dot (c : ascii) :
  Ascii.eqb (PyStr.lower_ascii c) "." = Ascii.eqb c ".".
Proof. destruct c as [[] [] [] [] [] [] [] []]; reflexivity. Qed.

Lemma lower_idempotent (s : string) : PyStr.lower (PyStr.lower s) = PyStr.lower s.
Proof.
  induction s as [|c s IH]; [reflexivity |]. simpl.
  now rewrite lower_ascii_idempotent, IH.
Qed.

Lemma contains_dot_lower (s : string) :
  PyStr.contains "." (PyStr.lower s) = PyStr.contains "." s.
Proof.
  induction s as [|c s IH]; [reflexivity |]. simpl.
  now rewrite lower_ascii_dot, IH.
Qed.

(** [extension] is the lower-cased text after the last dot. *)
Lemma extension_cut (fn e : string) :
  extension fn = Ok e <->
  exists stem ext, fn = stem +:+ "." +:+ ext /\
                   PyStr.contains "." ext = false /\ e = PyStr.lower ext.
Proof.
  unfold extension, PyStr.rsplit1. split.
  - destruct (PyStr.rcut "." fn) as [[a b]|] eqn:E; [| discriminate].
    cbn. intros [= <-]. apply rcut_Some in E as [-> Hb]. now exists a, b.
  - intros (stem & ext & -> & Hdot & ->). now rewrite (rcut_append stem ext Hdot).
Qed.

(** X1: [allowed_file] accepts exactly the names "stem.ext" whose last
    component [ext] has no dot and is, lower-cased, in [EXTENSIONS]: the
    stem plays no part and the case of the extension none either. *)
Theorem allowed_file_shape (fn : string) :
  allowed_file fn = Ok true <->
  exists stem ext, fn = stem +:+ "." +:+ ext /\
                   PyStr.contains "." ext = false /\
                   PyStr.lower ext ∈ EXTENSIONS.
Proof.
  rewrite allowed_file_true. unfold has_extension_in. split.
  - intros (e & He & Hin). apply extension_cut in He as (stem & ext & -> & Hdot & ->).
    now exists stem, ext.
  - intros (stem & ext & -> & Hdot & Hin). exists (PyStr.lower ext).
    split; [| exact Hin]. apply extension_cut. now exists stem, ext.
Qed.

(** X2: whatever [extension] returns is in lower case already and has no
    dot, so taking the extension of "<name>.<extension>" gives it back. *)
Theorem extension_normal (fn e : string) :
  extension fn = Ok e ->
  PyStr.lower e = e /\
  PyStr.contains "." e = false /\
  forall name, extension (name +:+ "." +:+ e) = Ok e.
Proof.
  intros He. apply extension_cut in He as (stem & ext & -> & Hdot & ->).
  assert (Hlow : PyStr.lower (PyStr.lower ext) = PyStr.lower ext)
    by apply lower_idempotent.
  assert (Hnodot : PyStr.contains "." (PyStr.lower ext) = false)
    by now rewrite contains_dot_lower.
  split; [exact Hlow |]. split; [exact Hnodot |].
  intros name. apply extension_cut. exists name, (PyStr.lower ext).
  now rewrite Hlow.
Qed.

Lemma extension_normal_witness :
  PyStr.lower "gz" = "gz" /\
  PyStr.contains "." "gz" = false /\
  forall name, extension (name +:+ "." +:+ "gz") = Ok "gz".
Proof.
  apply (extension_normal "Backup.TAR.GZ" "gz"). reflexivity.
Defined.

(** ** The identifier *)

Lemma digit_urlsafe (n : N) :
  PyStr.contains (urlsafe_char (Base64.digit n)) urlsafe_alphabet = true.
Proof.
  unfold Base64.digit.
  assert (Hlt : (N.to_nat (n mod 64) < 64)%nat).
  { pose proof (N.mod_upper_bound n 64 ltac:(discriminate)). lia. }
  destruct (N.to_nat (n mod 64)) as [|k]; [reflexivity |].
  do 63 (destruct k as [|k]; [reflexivity |]). lia.
Qed.

(** X3: when the digest has at least 9 bytes (MD5 gives 16), the
    identifier has exactly 12 characters, all of them letters, digits,
    [-] or [_] (no padding [=], no dot, no slash), and it is determined by
    the first 9 bytes of the digest alone: 72 of the hash's bits. *)
Theorem identifier_shape (h : string) :
  (9 <= String.length h)%nat ->
  String.length (to_id h) = 12%nat /\
  chars_in urlsafe_alphabet (to_id h) = true /\
  to_id h = to_id (PyStr.take 9 h).
Proof.
  intros Hlen.
  do 9 (destruct h as [|? h]; [simpl in Hlen; lia |]). clear Hlen.
  unfold to_id. rewrite !replace_is_urlsafe.
  cbn [Base64.b64encode PyStr.take urlsafe String.length chars_in].
  rewrite !digit_urlsafe. repeat split.
Qed.

Lemma identifier_shape_witness :
  String.length (to_id (MD5.digest "PNG!")) = 12%nat /\
  chars_in urlsafe_alphabet (to_id (MD5.digest "PNG!")) = true /\
  to_id (MD5.digest "PNG!") = to_id (PyStr.take 9 (MD5.digest "PNG!")).
Proof.
  apply (identifier_shape (MD5.digest "PNG!")). vm_compute. lia.
Defined.

Lemma to_id_is_urlsafe (h : string) :
  to_id h = PyStr.take 12 (urlsafe (Base64.b64encode h)).
Proof. unfold to_id. rewrite replace_is_urlsafe. apply take_urlsafe. Qed.

Lemma to_id_no_slash (h : string) : PyStr.contains "/" (to_id h) = false.
Proof.
  unfold to_id. rewrite replace_is_urlsafe. apply urlsafe_plain.
Qed.

Lemma allowed_extension_no_slash (ext : string) :
  ext ∈ EXTENSIONS -> PyStr.contains "/" ext = false.
Proof.
  unfold EXTENSIONS, VIDEO_EXTENSIONS, AUDIO_EXTENSIONS. set_unfold.
  intros H. repeat (destruct H as [H|H]); subst ext; reflexivity.
Qed.

Lemma length_append (a b : string) :
  String.length (a +:+ b) = (String.length a + String.length b)%nat.
Proof.
  induction a as [|c a IH]; [reflexivity |]. rewrite append_cons. simpl. now rewrite IH.
Qed.

(** [os.path.join] with a second component that does not start with a
    slash puts the first one in front, with a slash between them unless
    it is empty or ends in one. *)
Lemma path_join_relative (a b : string) :
  (forall r, b <> String "/" r) ->
  PyStr.path_join a b = directory_prefix a +:+ b.
Proof.
  intros Hrel.
  assert (Hstep : PyStr.path_join a b =
                  match a with
                  | EmptyString => b
                  | _ => match String.get (String.length a - 1) a with
                         | Some "/"%char => a +:+ b
                         | _ => a +:+ "/" +:+ b
                         end
                  end).
  { destruct b as [|c r]; [reflexivity |].
    destruct c as [[] [] [] [] [] [] [] []]; try reflexivity.
    now destruct (Hrel r). }
  rewrite Hstep. unfold directory_prefix, ends_in_slash.
  destruct a as [|x a]; [reflexivity |].
  destruct (String.get _ _) as [ch|]; [| symmetry; apply append_assoc].
  destruct ch as [[] [] [] [] [] [] [] []];
    reflexivity || (symmetry; apply append_assoc).
Qed.

Lemma ends_in_slash_append (a : string) : ends_in_slash (a +:+ "/") = true.
Proof.
  unfold ends_in_slash.
  assert (Hlast : String.get (String.length (a +:+ "/") - 1) (a +:+ "/")
                  = Some "/"%char).
  { rewrite length_append. cbn [String.length].
    replace (String.length a + 1 - 1)%nat with (0 + String.length a)%nat by lia.
    rewrite <- String.append_correct2. reflexivity. }
  now rewrite Hlast.
Qed.

(** The prefix is empty, or it ends in a slash. *)
Lemma directory_prefix_shape (folder : string) :
  directory_prefix folder = EmptyString \/
  ends_in_slash (directory_prefix folder) = true.
Proof.
  destruct folder as [|x a]; [now left | right]. unfold directory_prefix.
  destruct (ends_in_slash (String x a)) eqn:E; [exact E |].
  apply ends_in_slash_append.
Qed.

(** X4: the name [upload] stores a blob under, "<identifier>.<extension>"
    with an allowed extension, contains no slash, and [file_storage] of it
    is that name itself when the storage folder is empty, the folder
    followed by the name when the folder ends in a slash, and the folder,
    a slash and the name otherwise: the blob lies directly in the storage
    folder, never outside it or in a sub-directory of it. *)
Theorem storage_name_flat `{C : Collaborators} (h ext : string) :
  ext ∈ EXTENSIONS ->
  let name := to_id h +:+ "." +:+ ext in
  PyStr.contains "/" name = false /\
  file_storage name
  = match storage_folder with
    | EmptyString => name
    | _ => if ends_in_slash storage_folder
           then storage_folder +:+ name
           else storage_folder +:+ "/" +:+ name
    end /\
  file_storage name = directory_prefix storage_folder +:+ name /\
  (directory_prefix storage_folder = EmptyString \/
   ends_in_slash (directory_prefix storage_folder) = true).
Proof.
  intros Hin name.
  assert (Hflat : PyStr.contains "/" name = false).
  { unfold name. rewrite !contains_append, to_id_no_slash.
    now rewrite (allowed_extension_no_slash ext Hin). }
  assert (Hjoin : file_storage name = directory_prefix storage_folder +:+ name).
  { apply path_join_relative. intros r Hr. rewrite Hr in Hflat. discriminate Hflat. }
  split; [exact Hflat |]. split; [| split; [exact Hjoin | apply directory_prefix_shape]].
  rewrite Hjoin. unfold directory_prefix.
  destruct storage_folder as [|x a]; [reflexivity |].
  destruct (ends_in_slash (String x a)); [reflexivity | apply append_assoc].
Qed.

Lemma storage_name_flat_witness :
  PyStr.contains "/" (to_id (MD5.digest "PNG!") +:+ "." +:+ "png") = false /\
  @file_storage production (to_id (MD5.digest "PNG!") +:+ "." +:+ "png")
  = "/srv/media" +:+ "/" +:+ to_id (MD5.digest "PNG!") +:+ "." +:+ "png" /\
  @file_storage production (to_id (MD5.digest "PNG!") +:+ "." +:+ "png")
  = "/srv/media/" +:+ to_id (MD5.digest "PNG!") +:+ "." +:+ "png" /\
  ("/srv/media/" = EmptyString \/ ends_in_slash "/srv/media/" = true).
Proof.
  apply (@storage_name_flat production (MD5.digest "PNG!") "png").
  apply (bool_decide_eq_true_1 _). vm_compute. reflexivity.
Defined.

(** ** [upload]: what it raises, stores and leaves alone *)

Section UploadMore.

Context `{C : Collaborators}.

Lemma upload_no_filename (f : upload_file) (filename : string) (e : exn) (w : World) :
  resulting_filename f filename = Raise e ->
  upload f filename w = (Raise e, w).
Proof. intros H. unfold upload, bind, lift. now rewrite H. Qed.

Lemma split_without_separator (sep : ascii) (s : string) :
  PyStr.contains sep s = false -> PyStr.split sep s = [s].
Proof.
  induction s as [|c s IH]; [reflexivity |]. simpl.
  intros H. apply orb_false_iff in H as [Hc Hs]. now rewrite Hc, (IH Hs).
Qed.

Lemma store_new_fs (f : upload_file) (ext : string) (w : World) :
  fs (store_new f ext w).2 = <[storage_path f ext := stream f]> (fs w).
Proof. unfold store_new. destruct (pushed _ _); reflexivity. Qed.

Lemma store_new_files (f : upload_file) (ext : string) (w : World) :
  files (store_new f ext w).2 = <[to_id (md5 (stream f)) := new_record f ext]> (files w).
Proof. unfold store_new. destruct (pushed _ _); reflexivity. Qed.

(** The cases of [upload] for a filename that exists: rejected, limited,
    duplicate, stored. *)
Lemma upload_cases (f : upload_file) (filename fn : string) (w : World) :
  resulting_filename f filename = Ok fn ->
  upload f filename w = (Ok (Status "no" 415), w) \/
  exists ext,
    extension fn = Ok ext /\ ext ∈ EXTENSIONS /\ nonzero f = true /\
    upload f filename w =
      if negb debug && rate_limit_exceeded (rl (gated f w))
      then (Ok (Status "ratelimit" 420), gated f w)
      else if bool_decide (is_Some (fs (gated f w) !! storage_path f ext))
           then (Ok (Status (to_id (md5 (stream f))) 409), gated f w)
           else store_new f ext (gated f w).
Proof.
  intros Hfn. destruct (nonzero f) eqn:Hnz.
  2:{ left. apply (upload_rejected f filename fn w Hfn). now left. }
  destruct (allowed_file_total fn) as [[|] Hal].
  2:{ left. apply (upload_rejected f filename fn w Hfn). now right. }
  right. pose proof Hal as Hal'. apply allowed_file_true in Hal' as (ext & He & Hin).
  exists ext. repeat split; try assumption.
  apply (upload_accepted f filename fn ext w Hfn Hnz Hal He).
Qed.

End UploadMore.

(** X5: a declared content type that is not empty, not
    [application/octet-stream], unknown to [mimetypes] and without a slash
    makes [upload] raise [IndexError] (from [split("/")[1]]) instead of
    answering 415; the world is as it was. *)
Theorem upload_bare_type_raises `{C : Collaborators}
    (f : upload_file) (filename ct : string) (w : World) :
  content_type f = Some ct ->
  ct <> EmptyString ->
  ct <> "application/octet-stream" ->
  guess_extension ct = None \/ guess_extension ct = Some EmptyString ->
  PyStr.contains "/" ct = false ->
  upload f filename w = (Raise IndexError, w).
Proof.
  intros Hct Hne Hoct Hguess Hslash. apply upload_no_filename.
  unfold resulting_filename. rewrite Hct.
  apply String.eqb_neq in Hne, Hoct. rewrite Hne, Hoct. cbn [negb andb].
  rewrite (split_without_separator "/" ct Hslash).
  destruct Hguess as [-> | ->]; reflexivity.
Qed.

Lemma upload_bare_type_raises_witness :
  @upload production
    {| nonzero := true; content_type := Some "gif"; stream := "GIF89a"; pos := 0%nat |}
    "a.gif" png_world
  = (Raise IndexError, png_world).
Proof.
  apply (@upload_bare_type_raises production _ "a.gif" "gif" png_world).
  - reflexivity.
  - discriminate.
  - discriminate.
  - left. reflexivity.
  - reflexivity.
Defined.

(** X6: when the declared content type has a registered extension
    ".<e>", that extension is appended to the filename whatever the
    filename already ends in, and it alone decides the upload: the answer
    is ("no", 415) exactly when the file object is falsy or [e],
    lower-cased, is not in [EXTENSIONS]. *)
Theorem declared_type_decides `{C : Collaborators}
    (f : upload_file) (filename ct e : string) (w : World) :
  content_type f = Some ct ->
  ct <> EmptyString ->
  ct <> "application/octet-stream" ->
  guess_extension ct = Some (String "." e) ->
  PyStr.contains "." e = false ->
  resulting_filename f filename = Ok (filename +:+ "." +:+ e) /\
  extension (filename +:+ "." +:+ e) = Ok (PyStr.lower e) /\
  ((upload f filename w).1 = Ok (Status "no" 415) <->
   nonzero f = false \/ PyStr.lower e ∉ EXTENSIONS).
Proof.
  intros Hct Hne Hoct Hguess Hdot.
  assert (Hfn : resulting_filename f filename = Ok (filename +:+ "." +:+ e)).
  { unfold resulting_filename. rewrite Hct.
    apply String.eqb_neq in Hne, Hoct. rewrite Hne, Hoct, Hguess. reflexivity. }
  assert (He : extension (filename +:+ "." +:+ e) = Ok (PyStr.lower e)).
  { apply extension_cut. now exists filename, e. }
  split; [exact Hfn |]. split; [exact He |]. split.
  - intros H. destruct (nonzero f) eqn:Hnz; [right | now left].
    intros Hin. apply (upload_accepted_not_415 f filename _ w Hfn Hnz); [| exact H].
    exists (PyStr.lower e). now split.
  - intros H. rewrite (upload_rejected f filename _ w Hfn); [reflexivity |].
    destruct H as [H|H]; [now left | right].
    apply allowed_file_false. intros (e' & He' & Hin). congruence.
Qed.

Lemma declared_type_decides_witness :
  let f := {| nonzero := true; content_type := Some "image/png";
              stream := "MZ"; pos := 0%nat |} in
  resulting_filename (C := production) f "setup.exe" = Ok ("setup.exe" +:+ "." +:+ "png") /\
  extension ("setup.exe" +:+ "." +:+ "png") = Ok (PyStr.lower "png") /\
  ((@upload production f "setup.exe" (empty_world production 0)).1
   = Ok (Status "no" 415) <->
   nonzero f = false \/ PyStr.lower "png" ∉ EXTENSIONS).
Proof.
  apply (@declared_type_decides production _ "setup.exe" "image/png" "png").
  - reflexivity.
  - discriminate.
  - discriminate.
  - reflexivity.
  - reflexivity.
Defined.

Section UploadEffects.

Context `{C : Collaborators}.

Lemma _k_inj (a b : string) : _k a = _k b -> a = b.
Proof. unfold _k. apply (inj (String.append key_prefix)). Qed.

Lemma lock_key_not_queue (i : string) : _k (i +:+ ".lock") <> _k "gifqueue".
Proof.
  intros H. apply _k_inj in H.
  assert (Hdot : PyStr.contains "." (i +:+ ".lock") = true)
    by (rewrite contains_append; apply orb_true_r).
  rewrite H in Hdot. discriminate Hdot.
Qed.

Lemma gated_stdout (f : upload_file) (w : World) : stdout (gated f w) = stdout w.
Proof. unfold gated. destruct debug; reflexivity. Qed.

Lemma store_new_stdout (f : upload_file) (ext : string) (w : World) :
  stdout (store_new f ext w).2 = stdout w.
Proof. unfold store_new. destruct (pushed _ _); reflexivity. Qed.

Lemma store_new_kv_other (f : upload_file) (ext k : string) (w : World) :
  k <> _k "gifqueue" ->
  k <> _k (to_id (md5 (stream f)) +:+ ".lock") ->
  kv (store_new f ext w).2 !! k = kv w !! k.
Proof.
  intros Hq Hl. unfold store_new. destruct (pushed _ _); [| reflexivity].
  cbn [snd kv set_kv set_files set_fs].
  rewrite lookup_insert_ne by congruence. now rewrite lookup_insert_ne by congruence.
Qed.

(** A successful upload is a store. *)
Lemma upload_success_shape (f : upload_file) (filename i : string) (w w1 : World) :
  upload f filename w = (Ok (Identifier i), w1) ->
  exists fn ext,
    resulting_filename f filename = Ok fn /\ extension fn = Ok ext /\
    ext ∈ EXTENSIONS /\
    store_new f ext (gated f w) = (Ok (Identifier i), w1).
Proof.
  intros Hup. destruct (resulting_filename f filename) as [fn|e] eqn:Hfn.
  2:{ rewrite (upload_no_filename f filename e w Hfn) in Hup. discriminate. }
  destruct (upload_cases f filename fn w Hfn) as [H | (ext & He & Hin & _ & H)];
    rewrite H in Hup; [discriminate |].
  exists fn, ext. repeat split; try assumption.
  destruct (negb debug && _); [discriminate |].
  destruct (bool_decide _); [discriminate | exact Hup].
Qed.

End UploadEffects.

(** The store, step by step. *)
Lemma upload_stores_run `{C : Collaborators}
    (f : upload_file) (filename fn ext : string) (w : World) :
  resulting_filename f filename = Ok fn ->
  nonzero f = true ->
  extension fn = Ok ext ->
  ext ∈ EXTENSIONS ->
  (debug = false ->
   rate_limit_exceeded (rate_limit_update (source_length f) (rl w)) = false) ->
  fs w !! storage_path f ext = None ->
  (forall s, kv w !! _k "gifqueue" <> Some (RString s)) ->
  let i := to_id (md5 (stream f)) in
  let w' := (upload f filename w).2 in
  (upload f filename w).1 = Ok (Identifier i) /\
  fs w' !! storage_path f ext = Some (stream f) /\
  files w' !! i = Some {| hash := i; original := i +:+ "." +:+ ext;
                          compression := Z.of_nat (String.length (stream f));
                          ip := secure_ip |} /\
  kv w' !! _k (i +:+ ".lock") = Some (RString "1") /\
  kv w' !! _k "gifqueue"
  = Some (RList (i :: match kv w !! _k "gifqueue" with
                      | Some (RList l) => l
                      | _ => []
                      end)).
Proof.
  intros Hfn Hnz He Hin Hrate Hnew Hqueue i w'. unfold w'.
  assert (Hal : allowed_file fn = Ok true)
    by (apply allowed_file_true; exists ext; split; assumption).
  rewrite (upload_accepted f filename fn ext w Hfn Hnz Hal He).
  assert (Hgate : negb debug && rate_limit_exceeded (rl (gated f w)) = false).
  { rewrite gated_rl. destruct debug eqn:D; [reflexivity |].
    cbn [negb andb]. now apply Hrate. }
  rewrite Hgate, gated_fs, Hnew.
  assert (Hno : bool_decide (is_Some (@None string)) = false)
    by (apply bool_decide_eq_false_2, is_Some_None).
  rewrite Hno. unfold store_new. rewrite gated_kv. fold i.
  pose proof (lock_key_not_queue i) as Hkeys.
  destruct (kv w !! _k "gifqueue") as [[s|l]|] eqn:Hq;
    [now destruct (Hqueue s) | |];
    cbn [pushed fst snd fs files kv set_kv set_files set_fs];
    rewrite !lookup_insert_eq, (lookup_insert_ne _ _ _ _ Hkeys), lookup_insert_eq;
    repeat split.
Qed.

(** X7: an accepted upload that is neither rate limited nor a duplicate
    (the queue key holding a list or nothing) returns the identifier of
    its bytes and leaves: the blob with the whole stream, wherever the
    stream's cursor was; the record with the name
    "<identifier>.<extension>", the byte length and the caller's address;
    the lock marker; and the identifier at the head of the queue. *)
Theorem upload_stores `{C : Collaborators}
    (f : upload_file) (filename fn ext : string) (w : World) :
  resulting_filename f filename = Ok fn ->
  nonzero f = true ->
  extension fn = Ok ext ->
  ext ∈ EXTENSIONS ->
  (debug = false ->
   rate_limit_exceeded (rate_limit_update (source_length f) (rl w)) = false) ->
  fs w !! storage_path f ext = None ->
  (forall s, kv w !! _k "gifqueue" <> Some (RString s)) ->
  let i := to_id (md5 (stream f)) in
  let w' := (upload f filename w).2 in
  (upload f filename w).1 = Ok (Identifier i) /\
  fs w' !! storage_path f ext = Some (stream f) /\
  files w' !! i = Some {| hash := i; original := i +:+ "." +:+ ext;
                          compression := Z.of_nat (String.length (stream f));
                          ip := secure_ip |} /\
  kv w' !! _k (i +:+ ".lock") = Some (RString "1") /\
  kv w' !! _k "gifqueue"
  = Some (RList (i :: match kv w !! _k "gifqueue" with
                      | Some (RList l) => l
                      | _ => []
                      end)).
Proof.
  intros Hfn Hnz He Hin Hrate Hnew Hqueue.
  exact (upload_stores_run f filename fn ext w Hfn Hnz He Hin Hrate Hnew Hqueue).
Qed.

Lemma upload_stores_witness :
  let f := {| nonzero := true; content_type := None; stream := "PNG!"; pos := 3%nat |} in
  let w' := (@upload production f "a.png" (empty_world production 0)).2 in
  (@upload production f "a.png" (empty_world production 0)).1
  = Ok (Identifier "_RwAcbWQm7W_") /\
  fs w' !! "/srv/media/_RwAcbWQm7W_.png" = Some "PNG!" /\
  files w' !! "_RwAcbWQm7W_"
  = Some {| hash := "_RwAcbWQm7W_"; original := "_RwAcbWQm7W_.png";
            compression := 4; ip := "203.0.113.7" |} /\
  kv w' !! "mediacrush._RwAcbWQm7W_.lock" = Some (RString "1") /\
  kv w' !! "mediacrush.gifqueue" = Some (RList ["_RwAcbWQm7W_"]).
Proof.
  apply (@upload_stores production
           {| nonzero := true; content_type := None; stream := "PNG!"; pos := 3%nat |}
           "a.png" "a.png" "png" (empty_world production 0) eq_refl eq_refl eq_refl).
  - apply (bool_decide_eq_true_1 _). vm_compute. reflexivity.
  - intros _. vm_compute. reflexivity.
  - apply lookup_empty.
  - intros s H. cbn in H. rewrite lookup_empty in H. discriminate H.
Defined.

(** X8: whatever it is given and whatever it answers, [upload] never
    changes or removes a blob that is stored, touches no record but the
    one of the identifier of its bytes, no redis key but the queue and
    the lock of that identifier, and prints nothing. *)
Theorem upload_frame `{C : Collaborators}
    (f : upload_file) (filename : string) (w : World) :
  let i := to_id (md5 (stream f)) in
  let w' := (upload f filename w).2 in
  (forall p, is_Some (fs w !! p) -> fs w' !! p = fs w !! p) /\
  (forall j, j <> i -> files w' !! j = files w !! j) /\
  (forall k, k <> _k "gifqueue" -> k <> _k (i +:+ ".lock") -> kv w' !! k = kv w !! k) /\
  stdout w' = stdout w.
Proof.
  intros i w'. unfold w'.
  destruct (resulting_filename f filename) as [fn|e] eqn:Hfn.
  2:{ rewrite (upload_no_filename f filename e w Hfn). repeat split. }
  destruct (upload_cases f filename fn w Hfn) as [H | (ext & He & Hin & _ & H)];
    rewrite H; [repeat split |].
  destruct (negb debug && _).
  { cbn [snd]. rewrite gated_fs, gated_files, gated_kv, gated_stdout. repeat split. }
  destruct (bool_decide _) eqn:Hdup.
  { cbn [snd]. rewrite gated_fs, gated_files, gated_kv, gated_stdout. repeat split. }
  apply bool_decide_eq_false_1 in Hdup. rewrite gated_fs in Hdup.
  rewrite store_new_fs, store_new_files, store_new_stdout,
    gated_fs, gated_files, gated_stdout.
  split; [| split; [| split; [| reflexivity]]].
  - intros p Hp. apply lookup_insert_ne. intros Heq. subst p. contradiction.
  - intros j Hj. apply lookup_insert_ne. fold i. congruence.
  - intros k Hq Hl. rewrite (store_new_kv_other f ext k _ Hq Hl). now rewrite gated_kv.
Qed.

(** X9: after a successful upload the status of the returned identifier
    is "processing", and asking for it changes nothing; the identifier is
    the specification's [deriveIdentifier] of the bytes. *)
Theorem upload_then_processing `{C : Collaborators}
    (f : upload_file) (filename i : string) (w w1 : World) :
  upload f filename w = (Ok (Identifier i), w1) ->
  i = deriveIdentifier (stream f) /\
  processing_status i w1 = (Ok (Some "processing"), w1).
Proof.
  intros Hup.
  apply upload_success_shape in Hup as (fn & ext & _ & _ & _ & Hst).
  unfold store_new in Hst.
  destruct (pushed _ _) as [queue|]; [| discriminate].
  injection Hst as <- <-. split.
  - unfold deriveIdentifier. apply to_id_is_urlsafe.
  - apply processing_status_locked. cbn [kv set_kv].
    rewrite lookup_insert_eq. eauto.
Qed.

Lemma upload_then_processing_witness :
  to_id (MD5.digest "PNG!") = @deriveIdentifier production "PNG!" /\
  @processing_status production (to_id (MD5.digest "PNG!")) once_uploaded
  = (Ok (Some "processing"), once_uploaded).
Proof.
  apply (@upload_then_processing production (plain_upload "PNG!") "a.png"
           (to_id (MD5.digest "PNG!")) (empty_world production 0) once_uploaded).
  apply pair_of_fst. vm_compute. reflexivity.
Defined.

(** X10: once a content is stored, an upload of the same bytes that has a
    resulting filename with the same extension, whatever its name,
    declared type or cursor, is answered: ("no", 415) when the file object
    is falsy; otherwise ("ratelimit", 420) when, outside debug mode, the
    limit is then exceeded; otherwise the same identifier and 409.  In
    each case blobs, records and redis keys stay as the first upload left
    them: no second job. *)
Theorem upload_again_is_duplicate `{C : Collaborators}
    (f1 f2 : upload_file) (name1 name2 fn1 fn2 ext i : string) (w0 w1 : World) :
  upload f1 name1 w0 = (Ok (Identifier i), w1) ->
  resulting_filename f1 name1 = Ok fn1 ->
  extension fn1 = Ok ext ->
  stream f2 = stream f1 ->
  resulting_filename f2 name2 = Ok fn2 ->
  extension fn2 = Ok ext ->
  let again := upload f2 name2 w1 in
  again.1 = (if negb (nonzero f2) then Ok (Status "no" 415)
             else if negb debug &&
                     rate_limit_exceeded
                       (rate_limit_update (source_length f2) (rl w1))
                  then Ok (Status "ratelimit" 420)
                  else Ok (Status i 409)) /\
  fs again.2 = fs w1 /\ files again.2 = files w1 /\ kv again.2 = kv w1.
Proof.
  intros Hup Hfn1 He1 Hstream Hfn2 He2 again. unfold again.
  destruct (nonzero f2) eqn:Hnz; cbn [negb].
  2:{ rewrite (upload_rejected f2 name2 fn2 w1 Hfn2) by now left. repeat split. }
  pose proof (upload_success_inv f1 name1 fn1 ext i w0 w1 Hup Hfn1 He1) as Hst.
  apply store_new_success in Hst as (-> & _ & Hfs).
  assert (Hin : ext ∈ EXTENSIONS).
  { apply upload_success_shape in Hup as (fn & ext' & Hfn & He & Hin & _).
    congruence. }
  assert (Hal : allowed_file fn2 = Ok true)
    by (apply allowed_file_true; exists ext; split; assumption).
  assert (Hdup : is_Some (fs w1 !! storage_path f2 ext)).
  { unfold storage_path. rewrite Hstream. fold (storage_path f1 ext).
    rewrite Hfs, lookup_insert_eq. eauto. }
  rewrite (upload_accepted f2 name2 fn2 ext w1 Hfn2 Hnz Hal He2).
  rewrite gated_fs, (bool_decide_eq_true_2 _ Hdup), Hstream.
  assert (Hg : negb debug && rate_limit_exceeded (rl (gated f2 w1))
               = negb debug &&
                 rate_limit_exceeded (rate_limit_update (source_length f2) (rl w1))).
  { rewrite gated_rl. destruct debug; reflexivity. }
  rewrite Hg. clear Hg.
  destruct (negb debug &&
            rate_limit_exceeded (rate_limit_update (source_length f2) (rl w1)));
    cbn [fst snd]; rewrite gated_fs, gated_files, gated_kv; repeat split.
Qed.

Lemma upload_again_is_duplicate_witness :
  let f2 := {| nonzero := true; content_type := Some "image/png";
               stream := "PNG!"; pos := 4%nat |} in
  (@upload production f2 "copy" once_uploaded).1
  = Ok (Status (to_id (MD5.digest "PNG!")) 409) /\
  fs (@upload production f2 "copy" once_uploaded).2 = fs once_uploaded /\
  files (@upload production f2 "copy" once_uploaded).2 = files once_uploaded /\
  kv (@upload production f2 "copy" once_uploaded).2 = kv once_uploaded.
Proof.
  apply (@upload_again_is_duplicate production (plain_upload "PNG!")
           {| nonzero := true; content_type := Some "image/png";
              stream := "PNG!"; pos := 4%nat |}
           "a.png" "copy" "a.png" "copy.png" "png" (to_id (MD5.digest "PNG!"))
           (empty_world production 0) once_uploaded).
  - apply pair_of_fst. vm_compute. reflexivity.
  - reflexivity.
  - reflexivity.
  - reflexivity.
  - reflexivity.
  - reflexivity.
Defined.

(** ** [processing_status] in every state *)

(** X11: with a key prefix free of [%] and an error marker that, when
    present, is a string, [processing_status] never raises; it answers
    "processing" whenever the lock is present, even over a stale error
    marker, which it then leaves in place; without the lock it answers the
    marker's value and deletes the marker, or "done"; and it touches no
    other key (never the lock), no blob, no record. *)
Theorem processing_status_cases `{C : Collaborators} (id : string) (w : World) :
  plain_prefix ->
  (forall l, kv w !! _k (id +:+ ".error") <> Some (RList l)) ->
  let lock := kv w !! _k (id +:+ ".lock") in
  let error := kv w !! _k (id +:+ ".error") in
  let w' := (processing_status id w).2 in
  (processing_status id w).1
  = Ok (Some match lock, error with
             | Some _, _ => "processing"
             | None, Some (RString token) => token
             | None, _ => "done"
             end) /\
  kv w' = match lock, error with
          | None, Some _ => delete (_k (id +:+ ".error")) (kv w)
          | _, _ => kv w
          end /\
  fs w' = fs w /\ files w' = files w /\ stdout w' = stdout w.
Proof.
  intros Hp Hstr lock error w'. unfold w', lock, error.
  destruct (kv w !! _k (id +:+ ".lock")) as [v|] eqn:Hlock.
  - rewrite (processing_status_locked id w) by (rewrite Hlock; eauto).
    repeat split.
  - destruct (kv w !! _k (id +:+ ".error")) as [[token|l]|] eqn:Herr.
    + rewrite (processing_status_failed id token w Hp Hlock Herr). repeat split.
    + now destruct (Hstr l).
    + rewrite (processing_status_done id w Hlock Herr). repeat split.
Qed.

Lemma processing_status_cases_witness :
  (@processing_status production "abc" locked_world).1 = Ok (Some "processing") /\
  kv (@processing_status production "abc" locked_world).2 = kv locked_world /\
  kv locked_world !! "mediacrush.abc.error" = Some (RString "transcode-failed").
Proof.
  destruct (@processing_status_cases production "abc" locked_world)
    as (Hr & Hkv & _).
  - reflexivity.
  - intros l H. vm_compute in H. discriminate H.
  - assert (Hlock : kv locked_world !! @_k production ("abc" +:+ ".lock")
                    = Some (RString "1")) by (vm_compute; reflexivity).
    rewrite Hlock in Hr, Hkv. split; [exact Hr |]. split; [exact Hkv |].
    vm_compute. reflexivity.
Defined.

(** ** [compression_rate]: the loop, the errors, the frame *)

Section AccountingMore.

Context `{C : Collaborators}.

Lemma min_over_formats_cons (f f_ext : string) (rest : list string) (m : Z) (w : World) :
  min_over_formats f (f_ext :: rest) m w
  = min_over_formats f rest
      match fs w !! file_storage (f +:+ "." +:+ f_ext) with
      | Some bytes => Z.min m (Z.of_nat (String.length bytes))
      | None => m
      end w.
Proof.
  cbn [min_over_formats]. unfold bind at 1. unfold try_except.
  unfold bind at 1. unfold lift at 1. rewrite format_pair_eq.
  unfold bind at 1. unfold os_path_getsize.
  destruct (fs w !! file_storage (f +:+ "." +:+ f_ext)); reflexivity.
Qed.

End AccountingMore.

(** The loop, by induction on the formats. *)
Lemma min_over_formats_run `{C : Collaborators}
    (f : string) (fmts : list string) (m : Z) (w : World) :
  exists m',
    min_over_formats f fmts m w = (Ok m', w) /\
    m' <= m /\
    (forall f_ext bytes,
        f_ext ∈ fmts ->
        fs w !! file_storage (f +:+ "." +:+ f_ext) = Some bytes ->
        m' <= Z.of_nat (String.length bytes)) /\
    (m' = m \/
     exists f_ext bytes,
       f_ext ∈ fmts /\
       fs w !! file_storage (f +:+ "." +:+ f_ext) = Some bytes /\
       m' = Z.of_nat (String.length bytes)).
Proof.
  revert m. induction fmts as [|f_ext rest IH]; intros m.
  - exists m. split; [reflexivity |]. split; [lia |]. split; [| now left].
    intros f_ext bytes Hin. now apply elem_of_nil in Hin.
  - rewrite min_over_formats_cons.
    set (m1 := match fs w !! file_storage (f +:+ "." +:+ f_ext) with
               | Some bytes => Z.min m (Z.of_nat (String.length bytes))
               | None => m
               end).
    assert (Hm1 : m1 <= m) by (unfold m1; destruct (fs w !! _); lia).
    destruct (IH m1) as (m' & Hrun & Hle & Hall & Hone).
    exists m'. split; [exact Hrun |]. split; [lia |]. split.
    + intros e bytes Hin Hb. apply elem_of_cons in Hin as [-> | Hin].
      * unfold m1 in Hle. rewrite Hb in Hle. lia.
      * now apply (Hall e bytes).
    + destruct Hone as [-> | (e & bytes & Hin & Hb & ->)].
      * unfold m1. destruct (fs w !! file_storage (f +:+ "." +:+ f_ext)) as [bytes|] eqn:Hb;
          [| now left].
        destruct (Z.min_spec m (Z.of_nat (String.length bytes))) as [[_ ->] | [_ ->]];
          [now left | right].
        exists f_ext, bytes. split; [apply list_elem_of_here | now split].
      * right. exists e, bytes. split; [now apply list_elem_of_further | now split].
Qed.

(** X12: the loop of [compression_rate] over the target formats never
    raises and changes nothing; its result is at most the size it started
    from and at most the size of every rendition that is stored, and it is
    one of those sizes: a missing rendition is skipped, not counted as
    zero. *)
Theorem rendition_minimum `{C : Collaborators}
    (f : string) (fmts : list string) (m : Z) (w : World) :
  exists m',
    min_over_formats f fmts m w = (Ok m', w) /\
    m' <= m /\
    (forall f_ext bytes,
        f_ext ∈ fmts ->
        fs w !! file_storage (f +:+ "." +:+ f_ext) = Some bytes ->
        m' <= Z.of_nat (String.length bytes)) /\
    (m' = m \/
     exists f_ext bytes,
       f_ext ∈ fmts /\
       fs w !! file_storage (f +:+ "." +:+ f_ext) = Some bytes /\
       m' = Z.of_nat (String.length bytes)).
Proof. apply min_over_formats_run. Qed.

(** X13: [compression_rate] only reads: whatever it returns or raises,
    the world after it is the world before it. *)
Theorem compression_rate_reads_only `{C : Collaborators} (f : string) (w : World) :
  (compression_rate f w).2 = w.
Proof.
  unfold compression_rate.
  unfold bind at 1. unfold File_from_hash at 1.
  unfold bind at 1. unfold attributes.
  destruct (files w !! f) as [item|]; [| reflexivity].
  unfold ret at 1. unfold bind at 1. unfold lift at 1.
  destruct (extension (original item)) as [ext|e]; [| reflexivity].
  destruct (processing_needed !! ext) as [entry|]; [| reflexivity].
  destruct (length (formats entry) =? 0)%nat; [reflexivity |].
  unfold bind at 1. unfold os_path_getsize at 1.
  destruct (fs w !! file_storage (original item)) as [bytes|]; [| reflexivity].
  unfold bind at 1.
  destruct (min_over_formats_run f (formats entry)
              (Z.min (compression item) (Z.of_nat (String.length bytes))) w)
    as (m' & -> & _).
  unfold bind at 1. unfold lift at 1.
  destruct (PyFloat.div _ _) as [x|e]; [| reflexivity].
  unfold bind at 1. unfold lift at 1.
  destruct (PyFloat.div _ _) as [y|e]; reflexivity.
Qed.

(** X14: for a record whose extension is a key of the table with target
    formats, a missing original blob makes [compression_rate] raise
    [OSError]: only the sizes of the renditions are read inside the
    [try]. *)
Theorem compression_rate_missing_original `{C : Collaborators}
    (id ext : string) (item : File) (entry : processing_entry) (w : World) :
  files w !! id = Some item ->
  extension (original item) = Ok ext ->
  processing_needed !! ext = Some entry ->
  formats entry <> [] ->
  fs w !! file_storage (original item) = None ->
  compression_rate id w = (Raise OSError, w).
Proof.
  intros Hitem He Hkey Hfmts Hblob. unfold compression_rate.
  unfold bind at 1. unfold File_from_hash at 1. rewrite Hitem.
  unfold bind at 1. unfold attributes, ret at 1.
  unfold bind at 1. unfold lift at 1. rewrite He, Hkey.
  destruct (formats entry) as [|x l]; [contradiction |]. cbn [length Nat.eqb].
  unfold bind at 1. unfold os_path_getsize at 1. now rewrite Hblob.
Qed.

Lemma compression_rate_missing_original_witness :
  @compression_rate production "abc" orphan_world = (Raise OSError, orphan_world).
Proof.
  apply (@compression_rate_missing_original production "abc" "image/gif"
           mime_named_item
           {| formats := ["video/mp4"; "video/ogv"; "video/webm"];
              extras := Some ["image/png"]; time := None;
              processor := Some "GifProcessor" |} orphan_world).
  - vm_compute. reflexivity.
  - reflexivity.
  - vm_compute. reflexivity.
  - discriminate.
  - vm_compute. reflexivity.
Defined.

(** X15: for such a record with a [compression] of 0 and the original
    blob in storage, [compression_rate] raises [ZeroDivisionError]
    ([minsize / float(0)]). *)
Theorem compression_rate_zero_size `{C : Collaborators}
    (id ext : string) (item : File) (entry : processing_entry) (w : World) :
  files w !! id = Some item ->
  extension (original item) = Ok ext ->
  processing_needed !! ext = Some entry ->
  formats entry <> [] ->
  is_Some (fs w !! file_storage (original item)) ->
  compression item = 0 ->
  compression_rate id w = (Raise ZeroDivisionError, w).
Proof.
  intros Hitem He Hkey Hfmts [bytes Hblob] Hzero. unfold compression_rate.
  unfold bind at 1. unfold File_from_hash at 1. rewrite Hitem.
  unfold bind at 1. unfold attributes, ret at 1.
  unfold bind at 1. unfold lift at 1. rewrite He, Hkey.
  destruct (formats entry) as [|x l] eqn:Hf; [contradiction |]. cbn [length Nat.eqb].
  unfold bind at 1. unfold os_path_getsize at 1. rewrite Hblob.
  unfold bind at 1.
  destruct (min_over_formats_run id (x :: l)
              (Z.min (compression item) (Z.of_nat (String.length bytes))) w)
    as (m' & -> & _).
  rewrite Hzero. reflexivity.
Qed.

Lemma compression_rate_zero_size_witness :
  @compression_rate production "abc" zero_world = (Raise ZeroDivisionError, zero_world).
Proof.
  apply (@compression_rate_zero_size production "abc" "image/gif" zero_item
           {| formats := ["video/mp4"; "video/ogv"; "video/webm"];
              extras := Some ["image/png"]; time := None;
              processor := Some "GifProcessor" |} zero_world).
  - vm_compute. reflexivity.
  - reflexivity.
  - vm_compute. reflexivity.
  - discriminate.
  - apply (bool_decide_eq_true_1 _). vm_compute. reflexivity.
  - reflexivity.
Defined.

(** ** [delete_file]: a name without a dot, and what follows a deletion *)

(** X16: for a record whose original name has no dot, [delete_file]
    raises [IndexError] on its first line: nothing is printed and the
    record is still there. *)
Theorem delete_file_without_dot `{C : Collaborators} (item : File) (w : World) :
  PyStr.contains "." (original item) = false ->
  delete_file item w = (Raise IndexError, w).
Proof.
  intros Hdot. unfold delete_file, bind, lift.
  now rewrite (extension_without_dot _ Hdot).
Qed.

Lemma delete_file_without_dot_witness :
  @delete_file production dotless_item png_world = (Raise IndexError, png_world).
Proof.
  apply (@delete_file_without_dot production dotless_item png_world). reflexivity.
Defined.

(** X17: [delete_file] on the record of an uploaded content removes the
    record and leaves the blob, so a later upload of the same content is
    answered as a duplicate (or rate limited) and the content is left
    without a record. *)
Theorem delete_then_upload_again `{C : Collaborators}
    (f : upload_file) (name fn ext i : string) (w0 w1 : World) :
  upload f name w0 = (Ok (Identifier i), w1) ->
  resulting_filename f name = Ok fn ->
  extension fn = Ok ext ->
  let w2 := (delete_file (new_record f ext) w1).2 in
  let again := upload f name w2 in
  files w1 !! i = Some (new_record f ext) /\
  (delete_file (new_record f ext) w1).1 = Ok tt /\
  files w2 !! i = None /\
  fs w2 !! storage_path f ext = Some (stream f) /\
  (again.1 = Ok (Status i 409) \/ again.1 = Ok (Status "ratelimit" 420)) /\
  files again.2 !! i = None.
Proof.
  intros Hup Hfn He w2 again.
  assert (Hnz : nonzero f = true).
  { destruct (nonzero f) eqn:Hnz; [reflexivity |].
    rewrite (upload_rejected f name fn w0 Hfn) in Hup by now left. discriminate. }
  assert (Hin : ext ∈ EXTENSIONS).
  { pose proof Hup as Hup'.
    apply upload_success_shape in Hup' as (fn' & ext' & Hfn' & He' & Hin & _).
    congruence. }
  pose proof (upload_success_inv f name fn ext i w0 w1 Hup Hfn He) as Hst.
  apply store_new_success in Hst as (-> & Hfiles & Hfs).
  assert (Hext : extension (original (new_record f ext)) = Ok ext)
    by (apply extension_of_allowed, Hin).
  destruct (delete_file_keeps_storage (new_record f ext) ext w1 Hext)
    as (Hdel & Hfs2 & Hfiles2).
  fold w2 in Hfs2, Hfiles2. cbn [hash new_record] in Hfiles2.
  assert (Hblob : fs w2 !! storage_path f ext = Some (stream f))
    by (rewrite Hfs2, Hfs; apply lookup_insert_eq).
  assert (Hgone : files w2 !! to_id (md5 (stream f)) = None)
    by (rewrite Hfiles2; apply lookup_delete_eq).
  split; [rewrite Hfiles; apply lookup_insert_eq |].
  split; [exact Hdel |]. split; [exact Hgone |]. split; [exact Hblob |].
  assert (Hal : allowed_file fn = Ok true)
    by (apply allowed_file_true; exists ext; split; assumption).
  unfold again. rewrite (upload_accepted f name fn ext w2 Hfn Hnz Hal He).
  rewrite gated_fs, Hblob.
  rewrite (bool_decide_eq_true_2 _ (ltac:(eauto) : is_Some (Some (stream f)))).
  destruct (negb debug && _); cbn [fst snd]; rewrite gated_files;
    (split; [| exact Hgone]); [now right | now left].
Qed.

Lemma delete_then_upload_again_witness :
  let f := plain_upload "PNG!" in
  let i := to_id (MD5.digest "PNG!") in
  let w2 := (@delete_file production (@new_record production f "png") once_uploaded).2 in
  files once_uploaded !! i = Some (@new_record production f "png") /\
  (@delete_file production (@new_record production f "png") once_uploaded).1 = Ok tt /\
  files w2 !! i = None /\
  fs w2 !! @storage_path production f "png" = Some "PNG!" /\
  ((@upload production f "a.png" w2).1 = Ok (Status i 409) \/
   (@upload production f "a.png" w2).1 = Ok (Status "ratelimit" 420)) /\
  files (@upload production f "a.png" w2).2 !! i = None.
Proof.
  apply (@delete_then_upload_again production (plain_upload "PNG!") "a.png" "a.png"
           "png" (to_id (MD5.digest "PNG!")) (empty_world production 0) once_uploaded).
  - apply pair_of_fst. vm_compute. reflexivity.
  - reflexivity.
  - reflexivity.
Defined.

(** ** [URLFile]: download and save *)

Lemma take_length_append (a b : string) : PyStr.take (String.length a) (a +:+ b) = a.
Proof.
  induction a as [|c a IH]; [now destruct b |]. rewrite append_cons. simpl. now rewrite IH.
Qed.

Lemma drop_empty (n : nat) : PyStr.drop n EmptyString = EmptyString.
Proof. now destruct n. Qed.

Lemma drop_all (s : string) (n : nat) :
  (String.length s <= n)%nat -> PyStr.drop n s = EmptyString.
Proof.
  revert n. induction s as [|c s IH]; intros n H; [apply drop_empty |].
  destruct n as [|n]; simpl in *; [lia |]. apply IH. lia.
Qed.

Lemma drop_add (a b : nat) (s : string) :
  PyStr.drop (a + b) s = PyStr.drop b (PyStr.drop a s).
Proof.
  revert s. induction a as [|a IH]; intros s; [reflexivity |].
  destruct s as [|c s]; [now rewrite !drop_empty |]. apply IH.
Qed.

Lemma take_N_drop (s : string) (n : N) :
  take_N s n +:+ PyStr.drop (String.length (take_N s n)) s = s.
Proof.
  revert n. induction s as [|c s IH]; intros n; [reflexivity |]. simpl.
  destruct (n =? 0)%N; [reflexivity |]. rewrite append_cons. simpl. now rewrite IH.
Qed.

(** A write with the cursor at the end appends. *)
Lemma write_at_end (data : string) (u : URLFile.t) :
  URLFile.cursor u = String.length (URLFile.buffer u) ->
  URLFile.write data u
  = {| URLFile.filename := URLFile.filename u;
       URLFile.content_type := URLFile.content_type u;
       URLFile.buffer := URLFile.buffer u +:+ data;
       URLFile.cursor := String.length (URLFile.buffer u +:+ data) |}.
Proof.
  intros Hend. unfold URLFile.write. rewrite Hend, Nat.sub_diag.
  cbn [zeros]. rewrite append_empty_r.
  rewrite <- (append_empty_r (URLFile.buffer u)) at 2.
  rewrite take_length_append, (drop_all (URLFile.buffer u)) by lia.
  now rewrite append_empty_r, length_append.
Qed.

Lemma writes_at_end (chunks : list string) (u : URLFile.t) :
  URLFile.cursor u = String.length (URLFile.buffer u) ->
  let u' := fold_left (fun u chunk => URLFile.write chunk u) chunks u in
  URLFile.buffer u' = URLFile.buffer u +:+ fold_right String.append EmptyString chunks /\
  URLFile.cursor u' = String.length (URLFile.buffer u') /\
  URLFile.filename u' = URLFile.filename u /\
  URLFile.content_type u' = URLFile.content_type u.
Proof.
  revert u. induction chunks as [|chunk chunks IH]; intros u Hend.
  - cbn. now rewrite append_empty_r.
  - cbn [fold_left fold_right]. rewrite (write_at_end chunk u Hend).
    set (u1 := {| URLFile.filename := _ |}).
    destruct (IH u1 eq_refl) as (Hb & Hc & Hf & Ht).
    cbn zeta. rewrite Hb, Hf, Ht. cbn [URLFile.buffer URLFile.filename
                                       URLFile.content_type u1].
    rewrite append_assoc. repeat split. rewrite Hc, Hb.
    cbn [URLFile.buffer u1]. now rewrite append_assoc.
Qed.

(** The last piece of a split has no separator and ends the string. *)
Lemma split_last (sep : ascii) (s : string) :
  exists front name,
    PyStr.split sep s = (front ++ [name])%list /\
    PyStr.contains sep name = false /\
    ((front = [] /\ s = name) \/
     (front <> [] /\ exists p, s = p +:+ String sep name)).
Proof.
  induction s as [|c s (front & name & Hsplit & Hname & Hshape)].
  - exists [], EmptyString. repeat split. now left.
  - simpl. rewrite Hsplit. destruct (Ascii.eqb_spec c sep) as [-> | Hne].
    + exists (EmptyString :: front), name. split; [reflexivity |].
      split; [exact Hname |]. right. split; [discriminate |].
      destruct Hshape as [[_ ->] | [_ [p ->]]].
      * now exists EmptyString.
      * now exists (String sep p).
    + destruct Hshape as [[-> ->] | [Hfront [p ->]]].
      * exists [], (String c name). split; [reflexivity |]. split.
        -- simpl. apply Ascii.eqb_neq in Hne. now rewrite Hne.
        -- now left.
      * destruct front as [|x front]; [contradiction |].
        exists (String c x :: front), name. split; [reflexivity |].
        split; [exact Hname |]. right. split; [discriminate |].
        now exists (String c p).
Qed.

(** [download] from a new [URLFile], step by step. *)
Lemma download_spools_run (r : response) (url : string) :
  exists u,
    URLFile.download r url URLFile.init = Ok (negb (status_code r =? 404), u) /\
    URLFile.buffer u = body r /\
    URLFile.cursor u = String.length (body r) /\
    URLFile.rest u = EmptyString /\
    (status_code r = 404 ->
     URLFile.filename u = None /\ URLFile.content_type u = None).
Proof.
  unfold URLFile.download.
  destruct (writes_at_end (iter_content r) URLFile.init eq_refl)
    as (Hb & Hc & Hf & Ht).
  set (u0 := fold_left _ (iter_content r) URLFile.init) in *.
  cbn zeta in Hb, Hc, Hf, Ht. cbn [URLFile.buffer URLFile.init] in Hb.
  change (URLFile.buffer u0 = body r) in Hb. rewrite Hb in Hc.
  assert (Hrest : URLFile.rest u0 = EmptyString).
  { unfold URLFile.rest. apply drop_all. rewrite Hc, Hb. lia. }
  destruct (status_code r =? 404) eqn:E.
  - exists u0. repeat split; assumption.
  - destruct (split_last "/" url) as (front & name & -> & _ & _).
    rewrite rev_app_distr. cbn [rev app PyStr.index lookup list_lookup res_map res_bind].
    eexists. split; [reflexivity |].
    cbn [URLFile.buffer URLFile.cursor URLFile.rest].
    assert (Hkeep : forall v : URLFile.t,
               URLFile.buffer v = URLFile.buffer u0 ->
               URLFile.cursor v = URLFile.cursor u0 ->
               URLFile.buffer v = body r /\
               URLFile.cursor v = String.length (body r) /\
               PyStr.drop (URLFile.cursor v) (URLFile.buffer v) = EmptyString).
    { intros v -> ->. repeat split; assumption. }
    destruct (header "content-type" (headers r));
      destruct (Hkeep u0 eq_refl eq_refl) as (H1 & H2 & H3);
      (split; [exact H1 |]); (split; [exact H2 |]); (split; [exact H3 |]);
      intros H404; apply Z.eqb_neq in E; contradiction.
Qed.

(** X18: [download] on a new [URLFile] never raises; it returns [False]
    exactly for the status 404; in either case every chunk of the answer
    has been written to the temporary file, whose cursor is left at the
    end; on 404 the filename and the content type stay unset. *)
Theorem download_spools (r : response) (url : string) :
  exists u,
    URLFile.download r url URLFile.init = Ok (negb (status_code r =? 404), u) /\
    URLFile.buffer u = body r /\
    URLFile.cursor u = String.length (body r) /\
    URLFile.rest u = EmptyString /\
    (status_code r = 404 ->
     URLFile.filename u = None /\ URLFile.content_type u = None).
Proof. apply download_spools_run. Qed.

(** X19: when the status is not 404, [download] sets the filename to the
    text after the last slash of the URL (the whole URL when it has no
    slash): a name without a slash, empty when the URL ends in one, and
    with any query string still attached; the content type becomes the
    answer's [Content-Type] header, looked up without regard to case, when
    there is one. *)
Theorem download_names (r : response) (url : string) (u : URLFile.t) :
  status_code r <> 404 ->
  exists u' name,
    URLFile.download r url u = Ok (true, u') /\
    URLFile.filename u' = Some name /\
    PyStr.contains "/" name = false /\
    (url = name \/ exists p, url = p +:+ "/" +:+ name) /\
    URLFile.content_type u'
    = match header "content-type" (headers r) with
      | Some ct => Some ct
      | None => URLFile.content_type u
      end.
Proof.
  intros Hstatus. unfold URLFile.download.
  apply Z.eqb_neq in Hstatus. rewrite Hstatus.
  destruct (split_last "/" url) as (front & name & Hsplit & Hname & Hshape).
  rewrite Hsplit, rev_app_distr.
  cbn [rev app PyStr.index lookup list_lookup res_map res_bind].
  eexists. exists name. split; [reflexivity |].
  cbn [URLFile.filename URLFile.content_type].
  split; [reflexivity |]. split; [exact Hname |]. split.
  - destruct Hshape as [[_ ->] | [_ [p ->]]]; [now left | right; now exists p].
  - destruct (header "content-type" (headers r)); [reflexivity |].
    set (chunks := iter_content r). clearbody chunks. clear.
    revert u. induction chunks as [|chunk chunks IH]; intros u; [reflexivity |].
    cbn [fold_left]. now rewrite IH.
Qed.

Lemma download_names_witness :
  exists u' name,
    URLFile.download png_response "http://example.org/img/cat.png?size=2" URLFile.init
    = Ok (true, u') /\
    URLFile.filename u' = Some name /\
    PyStr.contains "/" name = false /\
    ("http://example.org/img/cat.png?size=2" = name \/
     exists p, "http://example.org/img/cat.png?size=2" = p +:+ "/" +:+ name) /\
    URLFile.content_type u'
    = match header "content-type" (headers png_response) with
      | Some ct => Some ct
      | None => URLFile.content_type URLFile.init
      end.
Proof.
  apply (download_names png_response "http://example.org/img/cat.png?size=2"
           URLFile.init).
  discriminate.
Defined.

Example download_query_string :
  res_map (fun p => (URLFile.filename p.2, URLFile.content_type p.2, URLFile.buffer p.2))
    (URLFile.download png_response "http://example.org/img/cat.png?size=2" URLFile.init)
  = Ok (Some "cat.png?size=2", Some "image/png", "PNG!").
Proof. vm_compute. reflexivity. Qed.

Lemma take_N_nonempty (c : ascii) (s : string) (n : N) :
  (0 < n)%N -> take_N (String c s) n <> EmptyString.
Proof.
  intros Hn. simpl. destruct (N.eqb_spec n 0) as [-> | _]; [lia | discriminate].
Qed.

(** The loop of [save] given enough fuel: everything from the cursor on
    has been written when it breaks, whatever the size of the chunks. *)
Lemma copy_run (fuel : nat) (bufsize : N) (u : URLFile.t) (written : string) :
  (0 < bufsize)%N ->
  (String.length (URLFile.rest u) < fuel)%nat ->
  URLFile.copy fuel bufsize u written
  = Some (written +:+ URLFile.rest u,
          {| URLFile.filename := URLFile.filename u;
             URLFile.content_type := URLFile.content_type u;
             URLFile.buffer := URLFile.buffer u;
             URLFile.cursor := (URLFile.cursor u + String.length (URLFile.rest u))%nat |}).
Proof.
  intros Hbuf. revert u written.
  induction fuel as [|fuel IH]; intros u written Hfuel; [lia |].
  cbn [URLFile.copy]. unfold URLFile.read.
  destruct (URLFile.rest u) as [|c r] eqn:Hrest.
  - cbn [take_N String.eqb negb String.length]. now rewrite append_empty_r.
  - pose proof (take_N_nonempty c r bufsize Hbuf) as Hne.
    pose proof (take_N_drop (String c r) bufsize) as Hcut.
    set (chunk := take_N (String c r) bufsize) in *.
    apply String.eqb_neq in Hne. rewrite Hne. cbn [negb].
    set (u1 := {| URLFile.filename := _ |}).
    assert (Hrest1 : URLFile.rest u1 = PyStr.drop (String.length chunk) (String c r)).
    { unfold URLFile.rest, u1. cbn [URLFile.cursor URLFile.buffer].
      rewrite drop_add. fold (URLFile.rest u). now rewrite Hrest. }
    assert (Hlen : String.length (String c r)
                   = (String.length chunk + String.length (URLFile.rest u1))%nat)
      by (rewrite Hrest1, <- length_append, Hcut; reflexivity).
    assert (Hpos : (0 < String.length chunk)%nat).
    { destruct chunk; [discriminate Hne | simpl; lia]. }
    rewrite (IH u1 (written +:+ chunk)) by lia.
    rewrite append_assoc, Hrest1, Hcut. unfold u1.
    cbn [URLFile.filename URLFile.content_type URLFile.buffer URLFile.cursor].
    fold u1. do 3 f_equal. rewrite Hlen, Hrest1. lia.
Qed.

(** [save], once [open] has succeeded and the loop has run. *)
Lemma save_run `{C : Collaborators}
    (can_open : string -> bool) (fuel : nat) (u : URLFile.t) (path : string)
    (w : World) :
  can_open path = true ->
  (String.length (URLFile.rest u) < fuel)%nat ->
  exists u' w',
    URLFile.save can_open fuel u path w = Some (Ok u', w') /\
    fs w' = <[path := URLFile.rest u]> (fs w) /\
    fs w' = fs (save (as_upload u) path w).2 /\
    files w' = files w /\ kv w' = kv w /\
    URLFile.buffer u' = URLFile.buffer u /\
    URLFile.rest u' = EmptyString.
Proof.
  intros Hopen Hfuel. unfold URLFile.save. rewrite Hopen.
  rewrite (copy_run fuel (1024 * 1024)%N u EmptyString ltac:(reflexivity) Hfuel).
  eexists. eexists. split; [reflexivity |].
  cbn [fs files kv set_fs URLFile.buffer]. rewrite append_empty_l.
  split; [apply insert_insert_eq |]. split; [apply insert_insert_eq |].
  repeat split.
  unfold URLFile.rest at 1. cbn [URLFile.cursor URLFile.buffer].
  rewrite drop_add. fold (URLFile.rest u). apply drop_all. lia.
Qed.

(** [save] when [open] fails. *)
Lemma save_refused `{C : Collaborators}
    (can_open : string -> bool) (fuel : nat) (u : URLFile.t) (path : string)
    (w : World) :
  can_open path = false ->
  URLFile.save can_open fuel u path w = Some (Raise IOError, w).
Proof. intros Hopen. unfold URLFile.save. now rewrite Hopen. Qed.

(** With [/srv/media] the only directory, [save] into a directory that
    does not exist, or to the empty path, raises [IOError] and writes
    nothing. *)
Example save_without_directory :
  let u := {| URLFile.filename := None; URLFile.content_type := None;
              URLFile.buffer := "PNG!"; URLFile.cursor := 2%nat |} in
  (@URLFile.save production media_folder_only 3 u "/srv/media/nodir/out.png"
     png_world = Some (Raise IOError, png_world)) /\
  (@URLFile.save production media_folder_only 3 u EmptyString png_world
   = Some (Raise IOError, png_world)).
Proof. split; apply save_refused; reflexivity. Qed.

(** X20: with fuel beyond the number of bytes after the cursor, the loop
    of [URLFile.save] finishes for every chunk size above 0 and has then
    written exactly the bytes from the cursor on.  When [open(path, "w")]
    succeeds, the destination holds those bytes afterwards, replacing
    whatever was at that path, which is what the [save] in the model of
    [upload] does; records and redis keys are untouched and the cursor is
    left at the end.  When [open] fails, [save] raises [IOError] and
    nothing is changed. *)
Theorem URLFile_save_copies `{C : Collaborators}
    (can_open : string -> bool) (fuel : nat) (u : URLFile.t) (path : string)
    (w : World) :
  (String.length (URLFile.rest u) < fuel)%nat ->
  (forall bufsize : N,
      (0 < bufsize)%N ->
      URLFile.copy fuel bufsize u EmptyString
      = Some (URLFile.rest u,
              {| URLFile.filename := URLFile.filename u;
                 URLFile.content_type := URLFile.content_type u;
                 URLFile.buffer := URLFile.buffer u;
                 URLFile.cursor :=
                   (URLFile.cursor u + String.length (URLFile.rest u))%nat |})) /\
  if can_open path then
    exists u' w',
      URLFile.save can_open fuel u path w = Some (Ok u', w') /\
      fs w' = <[path := URLFile.rest u]> (fs w) /\
      fs w' = fs (save (as_upload u) path w).2 /\
      files w' = files w /\ kv w' = kv w /\
      URLFile.buffer u' = URLFile.buffer u /\
      URLFile.rest u' = EmptyString
  else
    URLFile.save can_open fuel u path w = Some (Raise IOError, w).
Proof.
  intros Hfuel. split.
  - intros bufsize Hbuf. now rewrite (copy_run fuel bufsize u EmptyString Hbuf Hfuel).
  - destruct (can_open path) eqn:Hopen.
    + exact (save_run can_open fuel u path w Hopen Hfuel).
    + exact (save_refused can_open fuel u path w Hopen).
Qed.

Lemma URLFile_save_copies_witness :
  let u := {| URLFile.filename := None; URLFile.content_type := None;
              URLFile.buffer := "PNG!"; URLFile.cursor := 2%nat |} in
  (forall bufsize : N,
      (0 < bufsize)%N ->
      URLFile.copy 3 bufsize u EmptyString
      = Some ("G!",
              {| URLFile.filename := None; URLFile.content_type := None;
                 URLFile.buffer := "PNG!"; URLFile.cursor := 4%nat |})) /\
  exists u' w',
    @URLFile.save production media_folder_only 3 u "/srv/media/out.png" png_world
    = Some (Ok u', w') /\
    fs w' = <["/srv/media/out.png" := "G!"]> (fs png_world) /\
    fs w' = fs (@save production (as_upload u) "/srv/media/out.png" png_world).2 /\
    files w' = files png_world /\ kv w' = kv png_world /\
    URLFile.buffer u' = "PNG!" /\
    URLFile.rest u' = EmptyString.
Proof.
  apply (@URLFile_save_copies production media_folder_only 3
           {| URLFile.filename := None; URLFile.content_type := None;
              URLFile.buffer := "PNG!"; URLFile.cursor := 2%nat |}
           "/srv/media/out.png" png_world).
  simpl. lia.
Defined.

(** X21: for a [URLFile] that has just downloaded an answer other than
    404, the cursor is at the end.  If [open(path, "w")] succeeds, [save]
    called on it as it is leaves a file of 0 bytes at [path].  [upload] of
    it, which rewinds the file object before saving it, returns the
    identifier of the body and stores the whole body, provided the upload
    is one that stores: the resulting filename has an allowed extension,
    the limit is not exceeded outside debug mode, the content is not
    stored yet under that extension, and the queue key holds no string. *)
Theorem download_needs_rewind `{C : Collaborators}
    (can_open : string -> bool) (r : response) (url name fn ext path : string)
    (u : URLFile.t) (w : World) :
  URLFile.download r url URLFile.init = Ok (true, u) ->
  can_open path = true ->
  resulting_filename (as_upload u) name = Ok fn ->
  extension fn = Ok ext ->
  ext ∈ EXTENSIONS ->
  (debug = false ->
   rate_limit_exceeded
     (rate_limit_update (Z.of_nat (String.length (body r))) (rl w)) = false) ->
  fs w !! storage_path (as_upload u) ext = None ->
  (forall s, kv w !! _k "gifqueue" <> Some (RString s)) ->
  (exists u' w',
      URLFile.save can_open 1 u path w = Some (Ok u', w') /\
      fs w' !! path = Some EmptyString) /\
  (upload (as_upload u) name w).1 = Ok (Identifier (to_id (md5 (body r)))) /\
  fs (upload (as_upload u) name w).2 !! storage_path (as_upload u) ext
  = Some (body r).
Proof.
  intros Hdl Hopen Hfn He Hin Hrate Hnew Hqueue.
  destruct (download_spools_run r url) as (u0 & Hrun & Hbuf & _ & Hrest & _).
  rewrite Hrun in Hdl. injection Hdl as _ <-.
  split.
  - destruct (save_run can_open 1 u0 path w Hopen) as (u' & w' & Hsave & Hfs & _);
      [rewrite Hrest; simpl; lia |].
    exists u', w'. split; [exact Hsave |].
    rewrite Hfs, Hrest. apply lookup_insert_eq.
  - assert (Hstream : stream (as_upload u0) = body r) by exact Hbuf.
    assert (Hrate' : debug = false ->
              rate_limit_exceeded
                (rate_limit_update (source_length (as_upload u0)) (rl w)) = false).
    { unfold source_length. rewrite Hstream. exact Hrate. }
    destruct (upload_stores_run (as_upload u0) name fn ext w Hfn eq_refl He Hin
                Hrate' Hnew Hqueue) as (Hres & Hblob & _).
    rewrite Hstream in Hres, Hblob. now split.
Qed.

Lemma download_needs_rewind_witness :
  let u := {| URLFile.filename := Some "cat.png";
              URLFile.content_type := Some "image/png";
              URLFile.buffer := "PNG!"; URLFile.cursor := 4%nat |} in
  (exists u' w',
      @URLFile.save production media_folder_only 1 u "/srv/media/x.png" (empty_world production 0)
      = Some (Ok u', w') /\
      fs w' !! "/srv/media/x.png" = Some EmptyString) /\
  (@upload production (as_upload u) "cat" (empty_world production 0)).1
  = Ok (Identifier "_RwAcbWQm7W_") /\
  fs (@upload production (as_upload u) "cat" (empty_world production 0)).2
    !! "/srv/media/_RwAcbWQm7W_.png"
  = Some "PNG!".
Proof.
  apply (@download_needs_rewind production media_folder_only png_response
           "http://example.org/img/cat.png" "cat" "cat.png" "png"
           "/srv/media/x.png"
           {| URLFile.filename := Some "cat.png";
              URLFile.content_type := Some "image/png";
              URLFile.buffer := "PNG!"; URLFile.cursor := 4%nat |}
           (empty_world production 0)).
  - vm_compute. reflexivity.
  - reflexivity.
  - reflexivity.
  - reflexivity.
  - apply (bool_decide_eq_true_1 _). vm_compute. reflexivity.
  - intros _. vm_compute. reflexivity.
  - apply lookup_empty.
  - intros s H. cbn in H. rewrite lookup_empty in H. discriminate H.
Defined.
